(** * sitemon.sh: the per-site health monitor and its supervisor

    A shallow embedding of [src/sitemon.sh].  Shell variables that only ever
    hold integers are kept as [Z] with bash's 64-bit wrap-around made
    explicit; every other variable is a [string].  External commands
    ([date], [tee], [curl], [sleep], [pkill]) appear as events of a
    chronological trace; what [date] prints and what the probing [curl]
    answers are supplied by the environment. *)

From Stdlib Require Import ZArith String List Lia Ascii Bool.
From stdpp Require Import gmap strings list fin_maps pretty.
Import ListNotations.
Open Scope Z_scope.

(** ** Shell arithmetic and the [test] builtin *)

Module Shell.

(** [$(( ))] computes in [intmax_t]: signed, 64 bits, silent wrap-around. *)
Definition intmax_wrap (z : Z) : Z := (z + 2 ^ 63) mod 2 ^ 64 - 2 ^ 63.

Definition INTMAX_MAX : Z := 2 ^ 63 - 1.
Definition INTMAX_MIN : Z := - 2 ^ 63.

Definition add (a b : Z) : Z := intmax_wrap (a + b).
Definition mul (a b : Z) : Z := intmax_wrap (a * b).
(** [%] truncates toward zero, as in C. *)
Definition rem (a b : Z) : Z := Z.rem a b.

(** Characters skipped by [strtoimax] before the number. *)
Definition isspace (c : ascii) : bool :=
  let n := nat_of_ascii c in
  (Nat.eqb n 32 || (Nat.leb 9 n && Nat.leb n 13))%bool.

(** Characters [test] tolerates after the number: blank and tab. *)
Definition whitespace (c : ascii) : bool :=
  let n := nat_of_ascii c in (Nat.eqb n 32 || Nat.eqb n 9)%bool.

Definition digit_val (c : ascii) : option Z :=
  let n := nat_of_ascii c in
  if (Nat.leb 48 n && Nat.leb n 57)%bool then Some (Z.of_nat n - 48) else None.

Fixpoint skip (p : ascii -> bool) (s : string) : string :=
  match s with
  | String c r => if p c then skip p r else s
  | EmptyString => s
  end.

(** Longest run of decimal digits at the head of [s]; [None] when there is
    no digit at all. *)
Fixpoint read_digits (acc : option Z) (s : string) : option Z * string :=
  match s with
  | String c r =>
      match digit_val c with
      | Some d => read_digits (Some (10 * default 0 acc + d)) r
      | None => (acc, s)
      end
  | EmptyString => (acc, s)
  end.

(** What [test] accepts as an integer operand: optional leading white
    space, an optional sign, at least one digit, optional trailing blanks,
    and a value that fits [intmax_t]. *)
Definition legal_number (s : string) : option Z :=
  let s1 := skip isspace s in
  let '(neg, s2) :=
    match s1 with
    | String "-" r => (true, r)
    | String "+" r => (false, r)
    | _ => (false, s1)
    end in
  match read_digits None s2 with
  | (Some v, rest) =>
      let v := if neg : bool then - v else v in
      if ((INTMAX_MIN <=? v) && (v <=? INTMAX_MAX))%bool then
        match skip whitespace rest with
        | EmptyString => Some v
        | _ => None
        end
      else None
  | (None, _) => None
  end.

(** [[ "$s" -eq n ]] as an [if] condition: an operand that is not an
    integer makes [test] fail with status 2, which [if] takes as false. *)
Definition test_eq (s : string) (n : Z) : bool :=
  match legal_number s with
  | Some v => v =? n
  | None => false
  end.

(** [[ -z "$s" ]] *)
Definition test_z (s : string) : bool :=
  match s with EmptyString => true | _ => false end.

(** [${s//\//_}]: every slash replaced by an underscore. *)
Fixpoint subst_slash (s : string) : string :=
  match s with
  | String c r =>
      String (if Ascii.eqb c "/" then "_"%char else c) (subst_slash r)
  | EmptyString => EmptyString
  end.

(** Expansion of a variable that holds an integer, or is unset. *)
Definition expand (v : option Z) : string :=
  match v with Some z => pretty z | None => "" end.

#[global] Arguments add : simpl never.
#[global] Arguments mul : simpl never.
#[global] Arguments rem : simpl never.
#[global] Arguments test_eq : simpl never.

End Shell.

(** ** Configuration ([/etc/sitemon/sitemon.conf]) and process environment *)

Record config := {
  SITES : list string;
  LOG_DIR : string;
  LOG_FILE : string;
  interval : Z;
  flush_log_on_start : Z;
  disable_telegram : Z;
  HOSTNAME : string;
  PID : string          (* [$$] *)
}.

(** ** Time: what [date '+%Y-%m-%d %H:%M:%S'] prints *)

Record tm := {
  tm_year : Z; tm_mon : Z; tm_mday : Z;
  tm_hour : Z; tm_min : Z; tm_sec : Z
}.

Definition pad2 (z : Z) : string :=
  if z <? 10 then "0" +:+ pretty z else pretty z.

Definition date_fmt (t : tm) : string :=
  pretty (tm_year t) +:+ "-" +:+ pad2 (tm_mon t) +:+ "-" +:+ pad2 (tm_mday t)
  +:+ " " +:+ pad2 (tm_hour t) +:+ ":" +:+ pad2 (tm_min t) +:+ ":"
  +:+ pad2 (tm_sec t).

(** ** Messages, lines and events *)

(** The message texts of the script, one constructor per format string. *)
Inductive message :=
  | ScriptStarted (pid : string)
  | ScriptStartedFlush (pid : string)
  | ScriptStartedOn (host pid : string)
  | ReceivedSigterm (host : string)
  | MonitoringStarted (site pid : string)
  | LastFail (lastFAIL : string) (error_duration : option Z)
  | BackOnline (site : string) (error_duration : option Z)
  | ResponseOK (site : string)
  | ResponseFail (site respcode : string)
  | Alert (site : string) (error_duration : option Z) (lastOK : string).

Definition text (m : message) : string :=
  match m with
  | ScriptStarted pid => "Script is started. PID " +:+ pid
  | ScriptStartedFlush pid => " Script is started. PID " +:+ pid
  | ScriptStartedOn host pid =>
      "Script is started on " +:+ host +:+ ". PID " +:+ pid
  | ReceivedSigterm host =>
      "Received signal SIGTERM. Finishing the script on " +:+ host +:+ "..."
  | MonitoringStarted site pid =>
      "Monitoring started for " +:+ site +:+ " (PID " +:+ pid +:+ ")"
  | LastFail lf ed =>
      "Last fail: " +:+ lf +:+ " lasted " +:+ Shell.expand ed +:+ " seconds"
  | BackOnline site ed =>
      site +:+ " is back online. Downtime was " +:+ Shell.expand ed
      +:+ " seconds"
  | ResponseOK site => site +:+ " response OK"
  | ResponseFail site respcode =>
      site +:+ " response FAIL with code " +:+ respcode
  | Alert site ed lo =>
      "ALERT: " +:+ site +:+ " DOWN! for " +:+ Shell.expand ed
      +:+ " seconds. Last ok: " +:+ lo
  end.

(** A line of output: ["[<date>] <message>"], a bare message, or the empty
    line of a plain [echo]. *)
Inductive line :=
  | Stamped (stamp : string) (m : message)
  | Bare (m : message)
  | Blank.

Definition render (l : line) : string :=
  match l with
  | Stamped stamp m => "[" +:+ stamp +:+ "] " +:+ text m
  | Bare m => text m
  | Blank => ""
  end.

Inductive event :=
  | Truncate (file : string)           (* [> file], [tee file]: open, length 0 *)
  | Append (file : string) (l : line)  (* one line written at the end of file *)
  | Stderr (l : line)
  | Post (l : line)                    (* curl -X POST .../sendMessage, text=l *)
  | Probe (site : string)              (* curl -sL -o /dev/null -w %{http_code} *)
  | Sleep (seconds : Z)
  | Pkill (parent : string)            (* pkill -P parent *)
  | Exit (code : Z).

(** ** The shell as a state monad *)

(** Variables of one [sitemon] invocation.  [error_duration] is not declared
    [local], but every [sitemon] runs in its own background subshell, so it
    is private all the same; it is unset until the first failure. *)
Record vars := {
  lastOK : string;
  lastFAIL : string;
  status : Z;
  count : Z;
  error_duration : option Z
}.

(** The outside world: how many times [date] has been asked, and everything
    done so far, oldest first. *)
Record world := { ticks : nat; trace : list event }.

Definition sh (A : Type) : Type := vars * world -> A * (vars * world).

Definition ret {A} (a : A) : sh A := fun s => (a, s).
Definition bind {A B} (m : sh A) (k : A -> sh B) : sh B :=
  fun s => let '(a, s') := m s in k a s'.

Notation "x <- m ;; k" := (bind m (fun x => k))
  (at level 100, m at next level, right associativity).
Notation "m ;; k" := (bind m (fun _ => k))
  (at level 100, right associativity).

Definition get : sh vars := fun s => (fst s, s).
Definition modify (f : vars -> vars) : sh unit :=
  fun s => (tt, (f (fst s), snd s)).
Definition emit (e : event) : sh unit :=
  fun s => (tt, (fst s, {| ticks := ticks (snd s);
                           trace := trace (snd s) ++ [e] |})).
Definition when (b : bool) (m : sh unit) : sh unit :=
  if b then m else ret tt.

Definition set_lastOK (x : string) (v : vars) : vars :=
  {| lastOK := x; lastFAIL := lastFAIL v; status := status v;
     count := count v; error_duration := error_duration v |}.
Definition set_lastFAIL (x : string) (v : vars) : vars :=
  {| lastOK := lastOK v; lastFAIL := x; status := status v;
     count := count v; error_duration := error_duration v |}.
Definition set_status (x : Z) (v : vars) : vars :=
  {| lastOK := lastOK v; lastFAIL := lastFAIL v; status := x;
     count := count v; error_duration := error_duration v |}.
Definition set_count (x : Z) (v : vars) : vars :=
  {| lastOK := lastOK v; lastFAIL := lastFAIL v; status := status v;
     count := x; error_duration := error_duration v |}.
Definition set_error_duration (x : Z) (v : vars) : vars :=
  {| lastOK := lastOK v; lastFAIL := lastFAIL v; status := status v;
     count := count v; error_duration := Some x |}.

(** ** The script *)

Section Script.

Variable cfg : config.
(** [clock n] is the time read by the [n]-th call of [date]. *)
Variable clock : nat -> tm.

Definition date : sh string :=
  fun s => (date_fmt (clock (ticks (snd s))),
            (fst s, {| ticks := S (ticks (snd s));
                       trace := trace (snd s) |})).

(** [send_telegram_message]: posts only when [disable_telegram] is 0. *)
Definition send_telegram_message (l : line) : sh unit :=
  when (disable_telegram cfg =? 0) (emit (Post l)).

(** [log_service]: [echo "[date] $1" | tee -a "$LOG_FILE" >&2], then the
    same message, stamped anew, to Telegram. *)
Definition log_service (m : message) : sh unit :=
  t <- date ;;
  emit (Append (LOG_FILE cfg) (Stamped t m)) ;;
  emit (Stderr (Stamped t m)) ;;
  t' <- date ;;
  send_telegram_message (Stamped t' m).

(** ["${LOG_DIR}/${site//\//_}.log"] *)
Definition logfile (site : string) : string :=
  LOG_DIR cfg +:+ "/" +:+ Shell.subst_slash site +:+ ".log".

(** [log], the function nested in [sitemon]: it reads [status] when it is
    called, and mirrors the line to Telegram only when that is 0. *)
Definition log (site : string) (m : message) : sh unit :=
  t <- date ;;
  emit (Append (logfile site) (Stamped t m)) ;;
  emit (Stderr (Stamped t m)) ;;
  v <- get ;;
  when (status v =? 0)
    (t' <- date ;; send_telegram_message (Stamped t' m)).

(** One iteration of [while true], given what the probe printed. *)
Definition cycle (site : string) (itv : Z) (respcode : string) : sh unit :=
  emit (Probe site) ;;
  (if Shell.test_eq respcode 200 then
     v <- get ;;
     when (status v =? 0)
       (when (negb (Shell.test_z (lastFAIL v)))
          (log site (LastFail (lastFAIL v) (error_duration v)) ;;
           send_telegram_message
             (Bare (BackOnline site (error_duration v))))) ;;
     modify (set_status 1) ;;
     log site (ResponseOK site) ;;
     t <- date ;;
     modify (set_lastOK t) ;;
     modify (set_count 0)
   else
     modify (set_status 0) ;;
     v <- get ;;
     when (count v <? 4) (log site (ResponseFail site respcode)) ;;
     modify (set_count (Shell.add (count v) 1)) ;;
     v <- get ;;
     modify (set_error_duration (Shell.mul (count v) itv)) ;;
     v <- get ;;
     when (Shell.rem (count v) 12 =? 0)
       (log site (Alert site (error_duration v) (lastOK v)) ;;
        t <- date ;;
        modify (set_lastFAIL t))) ;;
  emit (Sleep itv).

(** Before [sitemon] assigns them none of its variables is set: an unset
    variable expands to the empty string and counts as 0 in arithmetic. *)
Definition unset : vars :=
  {| lastOK := ""; lastFAIL := ""; status := 0; count := 0;
     error_duration := None |}.

(** [sitemon] up to the loop: [local lastOK=""], [local lastFAIL=""],
    [local status=1], the start line, [local count=0]. *)
Definition sitemon_begin (site : string) : sh unit :=
  modify (set_lastOK "") ;;
  modify (set_lastFAIL "") ;;
  modify (set_status 1) ;;
  log site (MonitoringStarted site (PID cfg)) ;;
  modify (set_count 0).

(** The variables on entry to the loop. *)
Definition sitemon_locals : vars :=
  {| lastOK := ""; lastFAIL := ""; status := 1; count := 0;
     error_duration := None |}.

(** The loop never ends; its behaviour is the family of its finite
    prefixes, one per list of probe answers. *)
Fixpoint cycles (site : string) (itv : Z) (answers : list string) : sh unit :=
  match answers with
  | [] => ret tt
  | r :: rest => cycle site itv r ;; cycles site itv rest
  end.

Definition sitemon (site : string) (itv : Z) (answers : list string) : sh unit :=
  sitemon_begin site ;; cycles site itv answers.

(** *** The supervisor: start-up block and SIGTERM trap *)

(** [for site in "${SITES[@]}"; do echo >"$LOG_DIR/....log"; done] *)
Fixpoint clear_site_logs (sites : list string) : sh unit :=
  match sites with
  | [] => ret tt
  | site :: rest =>
      emit (Truncate (logfile site)) ;;
      emit (Append (logfile site) Blank) ;;
      clear_site_logs rest
  end.

(** The start-up block.  With [flush_log_on_start] at 0 the script runs
    [log_service "..." | tee "$LOG_FILE" >&2]: both sides of the pipe start
    together, the right-hand [tee] (no [-a]) opens [LOG_FILE] truncating
    it and then reads nothing, because [log_service] prints to stderr
    only.  [outer_tee_first] says which side reaches the file first; any
    other interleaving leaves the files as one of these two does. *)
Definition startup (outer_tee_first : bool) : sh unit :=
  if flush_log_on_start cfg =? 0 then
    (if outer_tee_first then
       emit (Truncate (LOG_FILE cfg)) ;;
       log_service (ScriptStarted (PID cfg))
     else
       log_service (ScriptStarted (PID cfg)) ;;
       emit (Truncate (LOG_FILE cfg))) ;;
    send_telegram_message (Bare (ScriptStartedOn (HOSTNAME cfg) (PID cfg)))
  else
    clear_site_logs (SITES cfg) ;;
    t <- date ;;
    emit (Truncate (LOG_FILE cfg)) ;;
    emit (Append (LOG_FILE cfg) (Stamped t (ScriptStartedFlush (PID cfg)))) ;;
    emit (Stderr (Stamped t (ScriptStartedFlush (PID cfg)))) ;;
    t' <- date ;;
    send_telegram_message (Stamped t' (ScriptStarted (PID cfg))).

(** The command list of [trap '...' SIGTERM]. *)
Definition on_sigterm : sh unit :=
  log_service (ReceivedSigterm (HOSTNAME cfg)) ;;
  emit (Pkill (PID cfg)) ;;
  emit (Exit 0).

(** *** Observing one action, and a run cycle by cycle *)

(** Run [m] from variables [v] with [n] earlier calls of [date] and an
    empty trace: new variables, new number of calls, events of [m]. *)
Definition observe (m : sh unit) (v : vars) (n : nat)
  : vars * nat * list event :=
  let '(_, (v', w')) := m (v, {| ticks := n; trace := [] |}) in
  (v', ticks w', trace w').

(** One pass through the loop body: the variables before it, the answer of
    the probe, the variables after it and what was done. *)
Record transition := {
  before : vars;
  answer : string;
  after : vars;
  events : list event
}.

(** The passes of a run, in order. *)
Fixpoint history (site : string) (itv : Z) (answers : list string)
    (v : vars) (n : nat) : list transition :=
  match answers with
  | [] => []
  | r :: rest =>
      let '(v', n', evs) := observe (cycle site itv r) v n in
      {| before := v; answer := r; after := v'; events := evs |}
      :: history site itv rest v' n'
  end.

Definition sitemon_history (site : string) (itv : Z) (answers : list string)
  : list transition :=
  let '(v0, n0, _) := observe (sitemon_begin site) unset 0%nat in
  history site itv answers v0 n0.

(** Everything one [sitemon] does while the loop consumes [answers]. *)
Definition sitemon_trace (site : string) (itv : Z) (answers : list string)
  : list event :=
  trace (snd (snd (sitemon site itv answers
                     (unset, {| ticks := 0; trace := [] |})))).

End Script.

(** ** Files *)

(** A file is the list of its lines; the file system maps paths to files. *)
Definition apply_event (fs : gmap string (list line)) (e : event)
  : gmap string (list line) :=
  match e with
  | Truncate f => <[f := []]> fs
  | Append f l => <[f := default [] (fs !! f) ++ [l]]> fs
  | _ => fs
  end.

Definition replay (fs : gmap string (list line)) (tr : list event)
  : gmap string (list line) :=
  foldl apply_event fs tr.

(** ** Reading traces *)

(** The ALERT log lines among [evs], each with the duration it states. *)
Definition alert_duration (e : event) : option (option Z) :=
  match e with
  | Append _ (Stamped _ (Alert _ ed _)) => Some ed
  | _ => None
  end.

Definition alerts (evs : list event) : list (option Z) :=
  omap alert_duration evs.

(** The ordinary failure log lines, each with the code it shows. *)
Definition failure_code (e : event) : option string :=
  match e with
  | Append _ (Stamped _ (ResponseFail _ code)) => Some code
  | _ => None
  end.

Definition failure_lines (evs : list event) : list string :=
  omap failure_code evs.

(** The "back online" notifications, each with the downtime it states. *)
Definition back_online_downtime (e : event) : option (option Z) :=
  match e with
  | Post (Bare (BackOnline _ ed)) => Some ed
  | _ => None
  end.

Definition back_online (evs : list event) : list (option Z) :=
  omap back_online_downtime evs.

(** The "Last fail ..." recovery lines written to a log. *)
Definition recovery_line (e : event) : option (string * option Z) :=
  match e with
  | Append _ (Stamped _ (LastFail lf ed)) => Some (lf, ed)
  | _ => None
  end.

Definition recovery_lines (evs : list event) : list (string * option Z) :=
  omap recovery_line evs.

(** Every line written to a log file, and every notification posted. *)
Definition log_lines (evs : list event) : list line :=
  omap (fun e => match e with Append _ l => Some l | _ => None end) evs.

Definition notifications (evs : list event) : list line :=
  omap (fun e => match e with Post l => Some l | _ => None end) evs.

(** Longest prefix of [l] whose elements satisfy [p]. *)
Fixpoint take_while {A} (p : A -> bool) (l : list A) : list A :=
  match l with
  | x :: r => if p x then x :: take_while p r else []
  | [] => []
  end.

(** Number of non-200 answers since the most recent 200. *)
Definition failures_since_last_200 (answers : list string) : nat :=
  length (take_while (fun r => negb (Shell.test_eq r 200)) (rev answers)).

(** The message of a line, without its time stamp. *)
Definition line_message (l : line) : option message :=
  match l with
  | Stamped _ m => Some m
  | Bare m => Some m
  | Blank => None
  end.

(** The counter's recurrence over a list of answers, starting from [c]. *)
Definition count_after (c : Z) (answers : list string) : Z :=
  foldl (fun c r => if Shell.test_eq r 200 then 0 else c + 1) c answers.

Definition failed (r : string) : Prop := Shell.test_eq r 200 = false.

(** What [curl -w "%{http_code}"] prints for a numeric status: three digits,
    [000] when there was no response. *)
Definition http_code (code : Z) : string :=
  (if code <? 100 then "0" else "") +:+ (if code <? 10 then "0" else "")
  +:+ pretty code.

(** ** The script without the monad

    [logged] and [cycle_flat] spell out, branch by branch, what [log] and
    [cycle] do to the variables, to the number of [date] calls and to the
    trace; [log_run] and [cycle_run] prove that they agree with the code. *)

Section Flat.

Variable cfg : config.
Variable clock : nat -> tm.

Definition stamp (n : nat) : string := date_fmt (clock n).

Definition posted (l : line) : list event :=
  if disable_telegram cfg =? 0 then [Post l] else [].

Definition logged (site : string) (n : nat) (m : message) (st : Z)
  : list event :=
  [Append (logfile cfg site) (Stamped (stamp n) m);
   Stderr (Stamped (stamp n) m)]
  ++ (if st =? 0 then posted (Stamped (stamp (S n)) m) else []).

Definition log_ticks (n : nat) (st : Z) : nat :=
  if st =? 0 then S (S n) else S n.

Definition cycle_flat (site : string) (itv : Z) (r : string)
    (v : vars) (n : nat) : vars * nat * list event :=
  if Shell.test_eq r 200 then
    let report := ((status v =? 0) && negb (Shell.test_z (lastFAIL v)))%bool in
    let n1 := if report then S (S n) else n in
    ({| lastOK := stamp (S n1); lastFAIL := lastFAIL v; status := 1;
        count := 0; error_duration := error_duration v |},
     S (S n1),
     [Probe site]
     ++ (if report then
           logged site n (LastFail (lastFAIL v) (error_duration v)) 0
           ++ posted (Bare (BackOnline site (error_duration v)))
         else [])
     ++ logged site n1 (ResponseOK site) 1
     ++ [Sleep itv])
  else
    let c := Shell.add (count v) 1 in
    let ed := Shell.mul c itv in
    let n1 := if count v <? 4 then S (S n) else n in
    let alert := Shell.rem c 12 =? 0 in
    ({| lastOK := lastOK v;
        lastFAIL := if alert then stamp (S (S n1)) else lastFAIL v;
        status := 0; count := c; error_duration := Some ed |},
     (if alert then S (S (S n1)) else n1),
     [Probe site]
     ++ (if count v <? 4 then logged site n (ResponseFail site r) 0 else [])
     ++ (if alert then logged site n1 (Alert site (Some ed) (lastOK v)) 0
         else [])
     ++ [Sleep itv]).

End Flat.

(** ** Reachable variables *)

(** What holds of the variables between two cycles: [status] is 0 or 1,
    [count] is 0 exactly when it is 1, and while it is 0 [error_duration]
    is the product the last failure computed. *)
Definition good (itv : Z) (v : vars) : Prop :=
  0 <= count v <= Shell.INTMAX_MAX /\
  ((status v = 1 /\ count v = 0) \/
   (status v = 0 /\ 0 < count v /\
    error_duration v = Some (Shell.mul (count v) itv))).

(** ** Statements of the specification that the script does not satisfy *)

(** "A recovery notification fires exactly once per DOWN->UP transition,
    with downtime = failures_before_reset * interval": in every pass that
    meets [status] 0 with a 200 answer, a recovery line is logged and one
    "back online" notification is posted, stating [count * interval]. *)
Definition recovery_always_notified (cfg : config) (clock : nat -> tm)
    (site : string) (itv : Z) (answers : list string) : Prop :=
  forall i t,
    sitemon_history cfg clock site itv answers !! i = Some t ->
    Shell.test_eq (answer t) 200 = true ->
    status (before t) = 0 ->
    back_online (events t) = [Some (count (before t) * itv)] /\
    recovery_lines (events t) <> [].

(** "If previous status == UP: update lastSuccessAt only; no log line, no
    notification": a 200 answer met with [status] 1 writes nothing to any
    log, posts nothing, and changes no variable but [lastOK]. *)
Definition routine_success_is_silent (cfg : config) (clock : nat -> tm)
    (site : string) (itv : Z) (r : string) (v : vars) (n : nat) : Prop :=
  Shell.test_eq r 200 = true -> status v = 1 ->
  let '(v', _, evs) := observe (cycle cfg clock site itv r) v n in
  log_lines evs = [] /\ notifications evs = [] /\
  v' = set_lastOK (lastOK v') v.

(** The files after the start-up block, from the files [fs] before it. *)
Definition startup_files (cfg : config) (clock : nat -> tm)
    (outer_tee_first : bool) (v : vars) (fs : gmap string (list line))
  : gmap string (list line) :=
  replay fs (snd (observe (startup cfg clock outer_tee_first) v 0)).

Definition started_record (l : line) : Prop :=
  exists s pid,
    l = Stamped s (ScriptStarted pid) \/ l = Stamped s (ScriptStartedFlush pid).

(** "Either append a started record to the aggregate log leaving per-site
    logs untouched, or first truncate every per-site log to empty and then
    append the started record." *)
Definition startup_as_specified (cfg : config) (clock : nat -> tm)
    (outer_tee_first : bool) (v : vars) (fs : gmap string (list line))
  : Prop :=
  let fs' := startup_files cfg clock outer_tee_first v fs in
  (exists l, started_record l /\
             fs' !! LOG_FILE cfg
             = Some (default [] (fs !! LOG_FILE cfg) ++ [l])) /\
  (forall site, In site (SITES cfg) ->
     fs' !! logfile cfg site =
     if flush_log_on_start cfg =? 0 then fs !! logfile cfg site
     else Some []).

(** What [clear_site_logs] does, as a list of events. *)
Definition clear_events (cfg : config) (sites : list string) : list event :=
  flat_map (fun site => [Truncate (logfile cfg site);
                         Append (logfile cfg site) Blank]) sites.

(** ** The probe and redirects

    [curl -sL -o /dev/null -w "%{http_code}" http://$site]: with [-L] curl
    follows redirects, and [%{http_code}] is the code of the last response
    it received, [000] when it received none.  An exchange is the list of
    the status codes of the responses curl received, in order; every
    response but the last is a redirect that was followed. *)
Definition curl_http_code (exchange : list Z) : string :=
  http_code (default 0 (last exchange)).

Definition redirect_followed (exchange : list Z) : Prop :=
  exists c rest, exchange = c :: rest /\ 300 <= c < 400 /\ rest <> [].

(** "Other 2xx codes and followed redirects still count as failure": a
    probe in which a redirect was followed ends the cycle with [status]
    0. *)
Definition followed_redirect_is_failure (cfg : config) (clock : nat -> tm)
    (site : string) (itv : Z) (exchange : list Z) (v : vars) (n : nat)
  : Prop :=
  redirect_followed exchange ->
  let '(v', _, _) :=
    observe (cycle cfg clock site itv (curl_http_code exchange)) v n in
  status v' = 0.

(** ** Further readers of names and traces *)

(** Does [s] contain a slash? *)
Fixpoint has_slash (s : string) : bool :=
  match s with
  | String c r => (Ascii.eqb c "/" || has_slash r)%bool
  | EmptyString => false
  end.

(** The probes and sleeps of a trace, in order. *)
Definition pacing (evs : list event) : list (string + Z) :=
  omap (fun e => match e with
                 | Probe s => Some (inl s)
                 | Sleep z => Some (inr z)
                 | _ => None
                 end) evs.

(** A trace without its Telegram posts. *)
Definition without_posts (evs : list event) : list event :=
  List.filter (fun e => match e with Post _ => false | _ => true end) evs.

(** The "Last ok:" field of the ALERT lines. *)
Definition alert_last_ok (e : event) : option string :=
  match e with
  | Append _ (Stamped _ (Alert _ _ lo)) => Some lo
  | _ => None
  end.

Definition alert_last_oks (evs : list event) : list string :=
  omap alert_last_ok evs.

(** [e] changes no file, or adds a line at the end of [f]. *)
Definition writes_only_to (f : string) (e : event) : Prop :=
  match e with
  | Append g _ => g = f
  | Truncate _ => False
  | _ => True
  end.

(** *** The main loop

    [for site in "${SITES[@]}"; do sitemon "$site" "$interval" & done; wait]
    starts one monitor per site, each in a background subshell with its
    own copy of the variables, all with the interval of the
    configuration.  [launch] gives the monitors' traces, one per site, for
    the probe answers each of them gets and the times each of them reads;
    what the script as a whole does is some interleaving of them. *)
Definition launch (cfg : config) (runs : list ((nat -> tm) * list string))
  : list (list event) :=
  zip_with (fun site run => sitemon_trace cfg (fst run) site (interval cfg)
                              (snd run))
    (SITES cfg) runs.

(** [interleaving trs tr]: [tr] takes the events of the traces [trs], each
    trace in its own order, in some order across traces. *)
Inductive interleaving : list (list event) -> list event -> Prop :=
  | interleaving_done trs :
      Forall (fun t => t = []) trs -> interleaving trs []
  | interleaving_step trs k e rest tr :
      trs !! k = Some (e :: rest) ->
      interleaving (<[k := rest]> trs) tr ->
      interleaving trs (e :: tr).

(** Does [e] change file [f]? *)
Definition touches (f : string) (e : event) : bool :=
  match e with
  | Append g _ => bool_decide (g = f)
  | Truncate g => bool_decide (g = f)
  | _ => false
  end.

(** The same configuration with Telegram switched off. *)
Definition cfg_quiet : config :=
  {| SITES := ["3di.it/"; "example.org"]; LOG_DIR := "/var/log/sitemon";
     LOG_FILE := "/var/log/sitemon.log"; interval := 5;
     flush_log_on_start := 1; disable_telegram := 1;
     HOSTNAME := "mon1"; PID := "4242" |}.

(** ** Concrete inputs used in examples *)

(** Logs left by an earlier run. *)
Definition fs_ex : gmap string (list line) :=
  {[ "/var/log/sitemon.log" :=
       [Stamped "2024-05-31 08:00:00" (ScriptStarted "977")];
     "/var/log/sitemon/3di.it_.log" :=
       [Stamped "2024-05-31 08:00:01" (ResponseOK "3di.it/")];
     "/var/log/sitemon/example.org.log" :=
       [Stamped "2024-05-31 08:00:01" (ResponseOK "example.org")] ]}.


Definition cfg_ex : config :=
  {| SITES := ["3di.it/"; "example.org"]; LOG_DIR := "/var/log/sitemon";
     LOG_FILE := "/var/log/sitemon.log"; interval := 5;
     flush_log_on_start := 1; disable_telegram := 0;
     HOSTNAME := "mon1"; PID := "4242" |}.

Definition cfg_keep : config :=
  {| SITES := ["3di.it/"; "example.org"]; LOG_DIR := "/var/log/sitemon";
     LOG_FILE := "/var/log/sitemon.log"; interval := 5;
     flush_log_on_start := 0; disable_telegram := 0;
     HOSTNAME := "mon1"; PID := "4242" |}.

(** A clock that advances one second per call of [date]. *)
Definition clock_ex (n : nat) : tm :=
  {| tm_year := 2024; tm_mon := 6; tm_mday := 1;
     tm_hour := 12; tm_min := Z.of_nat n / 60; tm_sec := Z.of_nat n mod 60 |}.

(** ** Facts about the embedding *)

Section Facts.

Variable cfg : config.
Variable clock : nat -> tm.

Ltac sh_unfold :=
  unfold log, log_service, send_telegram_message, when, bind, date, get,
    modify, emit, ret.

Lemma log_run site m v n tr :
  log cfg clock site m (v, {| ticks := n; trace := tr |}) =
  (tt, (v, {| ticks := log_ticks n (status v);
              trace := tr ++ logged cfg clock site n m (status v) |})).
Proof.
  unfold logged, posted, log_ticks. sh_unfold. simpl.
  destruct (status v =? 0); simpl;
    [destruct (disable_telegram cfg =? 0); simpl|];
    rewrite <- ?app_assoc; reflexivity.
Qed.

Lemma send_run l v n tr :
  send_telegram_message cfg l (v, {| ticks := n; trace := tr |}) =
  (tt, (v, {| ticks := n; trace := tr ++ posted cfg l |})).
Proof.
  unfold posted. sh_unfold. simpl.
  destruct (disable_telegram cfg =? 0); simpl; rewrite ?app_nil_r; reflexivity.
Qed.

Lemma cycle_run site itv r v n tr :
  cycle cfg clock site itv r (v, {| ticks := n; trace := tr |}) =
  let '(v', n', evs) := cycle_flat cfg clock site itv r v n in
  (tt, (v', {| ticks := n'; trace := tr ++ evs |})).
Proof.
  unfold cycle, cycle_flat, logged, posted.
  destruct (Shell.test_eq r 200).
  - destruct (status v =? 0) eqn:Hst;
      [destruct (Shell.test_z (lastFAIL v)) eqn:Hz|];
      destruct (disable_telegram cfg =? 0) eqn:Htg;
      sh_unfold; simpl; rewrite ?Hst, ?Hz, ?Htg; simpl;
      rewrite ?Hst, ?Htg; simpl;
      rewrite <- ?app_assoc; simpl; reflexivity.
  - destruct (count v <? 4) eqn:Hc;
      destruct (Shell.rem (Shell.add (count v) 1) 12 =? 0) eqn:Ha;
      destruct (disable_telegram cfg =? 0) eqn:Htg;
      sh_unfold; simpl; rewrite ?Hc, ?Ha, ?Htg; simpl;
      rewrite ?Ha, ?Htg; simpl;
      rewrite <- ?app_assoc; simpl; reflexivity.
Qed.

(** *** Arithmetic inside the 64-bit range *)

Lemma add_small c : 0 <= c < Shell.INTMAX_MAX -> Shell.add c 1 = c + 1.
Proof.
  unfold Shell.add, Shell.intmax_wrap, Shell.INTMAX_MAX. intros H.
  rewrite Z.mod_small; lia.
Qed.

Lemma mul_small a b :
  Shell.INTMAX_MIN <= a * b <= Shell.INTMAX_MAX -> Shell.mul a b = a * b.
Proof.
  unfold Shell.mul, Shell.intmax_wrap, Shell.INTMAX_MAX, Shell.INTMAX_MIN.
  intros H. rewrite Z.mod_small; lia.
Qed.

Lemma rem_mod a : 0 <= a -> Shell.rem a 12 = a mod 12.
Proof. intros H. unfold Shell.rem. apply Z.rem_mod_nonneg; lia. Qed.

(** *** [date] never prints the empty string *)

Lemma append_nonempty_r (a b : string) : b <> "" -> a +:+ b <> "".
Proof. destruct a; simpl; [auto | discriminate]. Qed.

Lemma stamp_nonempty n : stamp clock n <> "".
Proof.
  unfold stamp, date_fmt. apply append_nonempty_r. simpl. discriminate.
Qed.

Lemma test_z_stamp n : Shell.test_z (stamp clock n) = false.
Proof.
  pose proof (stamp_nonempty n) as H.
  destruct (stamp clock n); [congruence | reflexivity].
Qed.

(** *** One cycle *)

Lemma observe_cycle site itv r v n :
  observe (cycle cfg clock site itv r) v n = cycle_flat cfg clock site itv r v n.
Proof.
  unfold observe. rewrite cycle_run.
  destruct (cycle_flat cfg clock site itv r v n) as [[v' n'] evs].
  reflexivity.
Qed.

Lemma observe_log site m v n :
  observe (log cfg clock site m) v n =
  (v, log_ticks n (status v), logged cfg clock site n m (status v)).
Proof. unfold observe. rewrite log_run. reflexivity. Qed.

Lemma good_locals itv : good itv sitemon_locals.
Proof. unfold good, Shell.INTMAX_MAX; simpl. split; [lia | left; auto]. Qed.

Lemma good_step site itv r v n :
  good itv v -> count v < Shell.INTMAX_MAX ->
  good itv (fst (fst (cycle_flat cfg clock site itv r v n))).
Proof.
  intros [Hc Hs] Hlt. unfold cycle_flat.
  destruct (Shell.test_eq r 200); unfold good; simpl.
  - split; [unfold Shell.INTMAX_MAX; lia | left; auto].
  - rewrite add_small by lia. split; [lia | right]. repeat split; lia.
Qed.

Lemma count_step site itv r v n :
  good itv v -> count v < Shell.INTMAX_MAX ->
  count (fst (fst (cycle_flat cfg clock site itv r v n))) <= count v + 1.
Proof.
  intros [Hc Hs] Hlt. unfold cycle_flat.
  destruct (Shell.test_eq r 200); simpl; [lia | rewrite add_small; lia].
Qed.

(** *** Runs *)

(** Every entry of the history is one [cycle_flat] step taken from good
    variables whose counter is still below the 64-bit limit. *)
Lemma history_lookup site itv answers :
  forall v n i t,
    good itv v ->
    count v + Z.of_nat (length answers) <= Shell.INTMAX_MAX ->
    history cfg clock site itv answers v n !! i = Some t ->
    answers !! i = Some (answer t) /\ good itv (before t) /\
    count (before t) <= count v + Z.of_nat i /\
    exists m,
      after t = fst (fst (cycle_flat cfg clock site itv (answer t) (before t) m))
      /\ events t = snd (cycle_flat cfg clock site itv (answer t) (before t) m).
Proof.
  induction answers as [|a rest IH]; intros v n i t Hg Hb Hl.
  - destruct i; discriminate.
  - simpl in Hl. rewrite observe_cycle in Hl.
    assert (Hlt : count v < Shell.INTMAX_MAX)
      by (simpl length in Hb; lia).
    pose proof (good_step site itv a v n Hg Hlt) as Hg'.
    pose proof (count_step site itv a v n Hg Hlt) as Hc'.
    destruct (cycle_flat cfg clock site itv a v n) as [[v1 n1] e1] eqn:E.
    simpl in Hg', Hc'.
    destruct i as [|i]; simpl in Hl.
    + injection Hl as <-. simpl.
      split; [reflexivity|]. split; [exact Hg|]. split; [lia|].
      exists n. rewrite E. split; reflexivity.
    + destruct (IH v1 n1 i t Hg') as (H1 & H2 & H3 & H4);
        [simpl length in Hb; lia | exact Hl |].
      repeat (split; [first [exact H1 | exact H2 | lia]|]). exact H4.
Qed.

Lemma observe_begin site :
  observe (sitemon_begin cfg clock site) unset 0 =
  (sitemon_locals, 1%nat,
   logged cfg clock site 0 (MonitoringStarted site (PID cfg)) 1).
Proof.
  unfold observe, sitemon_begin.
  do 3 (unfold bind at 1; unfold modify at 1; simpl fst; simpl snd).
  unfold bind at 1. rewrite log_run. reflexivity.
Qed.

Lemma sitemon_history_eq site itv answers :
  sitemon_history cfg clock site itv answers =
  history cfg clock site itv answers sitemon_locals 1.
Proof. unfold sitemon_history. rewrite observe_begin. reflexivity. Qed.

Lemma sitemon_history_lookup site itv answers i t :
  Z.of_nat (length answers) <= Shell.INTMAX_MAX ->
  sitemon_history cfg clock site itv answers !! i = Some t ->
  answers !! i = Some (answer t) /\ good itv (before t) /\
  count (before t) < Z.of_nat (length answers) /\
  exists m,
    after t = fst (fst (cycle_flat cfg clock site itv (answer t) (before t) m))
    /\ events t = snd (cycle_flat cfg clock site itv (answer t) (before t) m).
Proof.
  intros Hb Hl. rewrite sitemon_history_eq in Hl.
  destruct (history_lookup site itv answers sitemon_locals 1%nat i t)
    as (H1 & H2 & H3 & H4); [apply good_locals | simpl; lia | exact Hl |].
  pose proof (lookup_lt_Some _ _ _ H1) as Hi. simpl in H3.
  repeat (split; [first [exact H1 | exact H2 | lia]|]). exact H4.
Qed.

(** *** The failure counter along a run *)

Lemma history_count site itv answers :
  forall v n i t,
    good itv v ->
    count v + Z.of_nat (length answers) <= Shell.INTMAX_MAX ->
    history cfg clock site itv answers v n !! i = Some t ->
    count (after t) = count_after (count v) (take (S i) answers).
Proof.
  induction answers as [|a rest IH]; intros v n i t Hg Hb Hl.
  - destruct i; discriminate.
  - simpl in Hl. rewrite observe_cycle in Hl.
    assert (Hlt : count v < Shell.INTMAX_MAX)
      by (simpl length in Hb; lia).
    pose proof (good_step site itv a v n Hg Hlt) as Hg'.
    pose proof (count_step site itv a v n Hg Hlt) as Hc'.
    assert (Hc : count (fst (fst (cycle_flat cfg clock site itv a v n)))
                 = if Shell.test_eq a 200 then 0 else count v + 1).
    { unfold cycle_flat. destruct (Shell.test_eq a 200); simpl;
        [reflexivity | apply add_small; destruct Hg; lia]. }
    destruct (cycle_flat cfg clock site itv a v n) as [[v1 n1] e1] eqn:E.
    simpl in Hg', Hc', Hc.
    destruct i as [|i]; simpl in Hl.
    + injection Hl as <-. simpl. rewrite ?take_0. simpl. exact Hc.
    + rewrite (IH v1 n1 i t Hg'); [|simpl length in Hb; lia | exact Hl].
      rewrite Hc. reflexivity.
Qed.

Lemma failures_snoc l r :
  failures_since_last_200 (l ++ [r]) =
  if Shell.test_eq r 200 then 0%nat else S (failures_since_last_200 l).
Proof.
  unfold failures_since_last_200. rewrite rev_app_distr. simpl.
  destruct (Shell.test_eq r 200); reflexivity.
Qed.

Lemma count_after_failures l :
  count_after 0 l = Z.of_nat (failures_since_last_200 l).
Proof.
  induction l as [|r l IH] using rev_ind; [reflexivity|].
  unfold count_after in *. rewrite foldl_app. simpl.
  rewrite failures_snoc. destruct (Shell.test_eq r 200); [reflexivity|].
  rewrite IH. lia.
Qed.

Lemma count_after_failed l :
  forall c, Forall failed l -> count_after c l = c + Z.of_nat (length l).
Proof.
  induction l as [|r l IH]; intros c Hf; simpl.
  - unfold count_after; simpl; lia.
  - inversion Hf as [|? ? Hr Hl]; subst. unfold count_after in *. simpl.
    unfold failed in Hr. rewrite Hr. rewrite (IH (c + 1) Hl). lia.
Qed.

Lemma after_count site itv answers i t :
  Z.of_nat (length answers) <= Shell.INTMAX_MAX ->
  sitemon_history cfg clock site itv answers !! i = Some t ->
  0 <= count (before t) /\
  count (after t) =
  if Shell.test_eq (answer t) 200 then 0 else count (before t) + 1.
Proof.
  intros Hb Hl.
  destruct (sitemon_history_lookup site itv answers i t Hb Hl)
    as (Ha & Hg & Hlt & m & Hv & He).
  destruct Hg as [Hc _]. split; [lia|].
  rewrite Hv. unfold cycle_flat.
  destruct (Shell.test_eq (answer t) 200); simpl;
    [reflexivity | apply add_small; lia].
Qed.

(** *** Reading the events of [log] and of a notification *)

Lemma alerts_logged site n m st :
  alerts (logged cfg clock site n m st) =
  match m with Alert _ ed _ => [ed] | _ => [] end.
Proof.
  unfold logged, posted.
  destruct m, (st =? 0), (disable_telegram cfg =? 0); reflexivity.
Qed.

Lemma alerts_posted l : alerts (posted cfg l) = [].
Proof. unfold posted. destruct (disable_telegram cfg =? 0); reflexivity. Qed.

Lemma failure_lines_logged site n m st :
  failure_lines (logged cfg clock site n m st) =
  match m with ResponseFail _ code => [code] | _ => [] end.
Proof.
  unfold logged, posted.
  destruct m, (st =? 0), (disable_telegram cfg =? 0); reflexivity.
Qed.

Lemma failure_lines_posted l : failure_lines (posted cfg l) = [].
Proof. unfold posted. destruct (disable_telegram cfg =? 0); reflexivity. Qed.

Lemma recovery_lines_logged site n m st :
  recovery_lines (logged cfg clock site n m st) =
  match m with LastFail lf ed => [(lf, ed)] | _ => [] end.
Proof.
  unfold logged, posted.
  destruct m, (st =? 0), (disable_telegram cfg =? 0); reflexivity.
Qed.

Lemma recovery_lines_posted l : recovery_lines (posted cfg l) = [].
Proof. unfold posted. destruct (disable_telegram cfg =? 0); reflexivity. Qed.

Lemma back_online_logged site n m st :
  back_online (logged cfg clock site n m st) = [].
Proof.
  unfold logged, posted.
  destruct (st =? 0), (disable_telegram cfg =? 0); reflexivity.
Qed.

Lemma log_lines_logged site n m st :
  log_lines (logged cfg clock site n m st) = [Stamped (stamp clock n) m].
Proof.
  unfold logged, posted.
  destruct (st =? 0), (disable_telegram cfg =? 0); reflexivity.
Qed.

Lemma log_lines_posted l : log_lines (posted cfg l) = [].
Proof. unfold posted. destruct (disable_telegram cfg =? 0); reflexivity. Qed.

Lemma notifications_logged site n m st :
  notifications (logged cfg clock site n m st) =
  if st =? 0 then notifications (posted cfg (Stamped (stamp clock (S n)) m))
  else [].
Proof. unfold logged. destruct (st =? 0); reflexivity. Qed.

Lemma alerts_app a b : alerts (a ++ b) = alerts a ++ alerts b.
Proof. apply omap_app. Qed.
Lemma failure_lines_app a b :
  failure_lines (a ++ b) = failure_lines a ++ failure_lines b.
Proof. apply omap_app. Qed.
Lemma recovery_lines_app a b :
  recovery_lines (a ++ b) = recovery_lines a ++ recovery_lines b.
Proof. apply omap_app. Qed.
Lemma back_online_app a b :
  back_online (a ++ b) = back_online a ++ back_online b.
Proof. apply omap_app. Qed.
Lemma log_lines_app a b : log_lines (a ++ b) = log_lines a ++ log_lines b.
Proof. apply omap_app. Qed.
Lemma notifications_app a b :
  notifications (a ++ b) = notifications a ++ notifications b.
Proof. apply omap_app. Qed.


End Facts.

Arguments logged : simpl never.
Arguments posted : simpl never.

Create Rewrite HintDb readers.
#[local] Hint Rewrite alerts_app failure_lines_app recovery_lines_app
  back_online_app log_lines_app notifications_app
  alerts_logged alerts_posted failure_lines_logged failure_lines_posted
  recovery_lines_logged recovery_lines_posted back_online_logged
  log_lines_logged log_lines_posted notifications_logged : readers.

(** *** Consecutive passes, and where [lastFAIL] comes from *)

Section Runs.

Variable cfg : config.
Variable clock : nat -> tm.

Lemma history_first site itv answers v n t :
  history cfg clock site itv answers v n !! 0%nat = Some t -> before t = v.
Proof.
  destruct answers as [|a rest]; simpl; [discriminate|].
  destruct (observe _ v n) as [[v1 n1] e1]. simpl.
  intros [= <-]. reflexivity.
Qed.

Lemma history_chain site itv answers :
  forall v n i t t',
    history cfg clock site itv answers v n !! i = Some t ->
    history cfg clock site itv answers v n !! S i = Some t' ->
    before t' = after t.
Proof.
  induction answers as [|a rest IH]; intros v n i t t' H1 H2;
    [discriminate|].
  simpl in H1, H2. destruct (observe _ v n) as [[v1 n1] e1].
  destruct i as [|i]; simpl in H1, H2.
  - injection H1 as <-. simpl. apply (history_first site itv rest v1 n1 t' H2).
  - apply (IH v1 n1 i t t' H1 H2).
Qed.

Lemma lastFAIL_step site itv answers i t :
  Z.of_nat (length answers) <= Shell.INTMAX_MAX ->
  sitemon_history cfg clock site itv answers !! i = Some t ->
  (lastFAIL (after t) = lastFAIL (before t) \/
   (0 < count (after t) /\ count (after t) mod 12 = 0 /\
    Shell.test_eq (answer t) 200 = false /\
    exists n, lastFAIL (after t) = stamp clock n)) /\
  (recovery_lines (events t) <> [] \/ back_online (events t) <> [] ->
   lastFAIL (before t) <> "" /\ status (before t) = 0 /\
   Shell.test_eq (answer t) 200 = true).
Proof.
  intros Hb Hl.
  destruct (sitemon_history_lookup cfg clock site itv answers i t Hb Hl)
    as (Ha & Hg & Hlt & m & Hv & He).
  destruct Hg as [Hc Hs].
  rewrite He, Hv. unfold cycle_flat.
  destruct (Shell.test_eq (answer t) 200) eqn:Hok; cbn [fst snd lastFAIL count].
  - split; [left; reflexivity|].
    destruct (status (before t) =? 0) eqn:Hst; simpl andb.
    + destruct (Shell.test_z (lastFAIL (before t))) eqn:Hz; simpl negb;
        autorewrite with readers; simpl.
      * intros [H|H]; congruence.
      * intros _. apply Z.eqb_eq in Hst.
        repeat split; [|exact Hst]. intros Hn. rewrite Hn in Hz. discriminate.
    + autorewrite with readers; simpl. intros [H|H]; congruence.
  - rewrite add_small by lia. rewrite rem_mod by lia. split.
    + destruct (_ mod 12 =? 0) eqn:Hm; [right | left; reflexivity].
      apply Z.eqb_eq in Hm. repeat split; [lia | exact Hm |]. eauto.
    + destruct (count (before t) <? 4), (_ mod 12 =? 0);
        autorewrite with readers; simpl; intros [H|H]; congruence.
Qed.

(** A non-empty [lastFAIL] was written by an earlier pass whose counter
    was a positive multiple of 12. *)
Lemma lastFAIL_origin site itv answers :
  Z.of_nat (length answers) <= Shell.INTMAX_MAX ->
  forall i t,
    sitemon_history cfg clock site itv answers !! i = Some t ->
    lastFAIL (before t) <> "" ->
    exists j tj,
      (j < i)%nat /\
      sitemon_history cfg clock site itv answers !! j = Some tj /\
      0 < count (after tj) /\ count (after tj) mod 12 = 0.
Proof.
  intros Hb. induction i as [|i IH]; intros t Hl Hne.
  - rewrite sitemon_history_eq in Hl.
    rewrite (history_first site itv answers _ _ t Hl) in Hne.
    simpl in Hne. congruence.
  - destruct (lookup_lt_is_Some_2 (sitemon_history cfg clock site itv answers) i)
      as [t0 Ht0]; [apply lookup_lt_Some in Hl; lia|].
    assert (Hch : before t = after t0).
    { rewrite sitemon_history_eq in Hl, Ht0.
      apply (history_chain site itv answers _ _ i t0 t Ht0 Hl). }
    destruct (lastFAIL_step site itv answers i t0 Hb Ht0) as [[Heq|Hal] _].
    + destruct (IH t0 Ht0) as (j & tj & Hj & Hlj & Hcj);
        [rewrite <- Heq, <- Hch; exact Hne|].
      exists j, tj. split; [lia | auto].
    + destruct Hal as (Hp & Hm & _). exists i, t0. split; [lia | auto].
Qed.

Lemma lastFAIL_kept site itv answers :
  Z.of_nat (length answers) <= Shell.INTMAX_MAX ->
  forall d i ti tj,
    sitemon_history cfg clock site itv answers !! i = Some ti ->
    sitemon_history cfg clock site itv answers !! (i + d)%nat = Some tj ->
    lastFAIL (after ti) <> "" -> lastFAIL (after tj) <> "".
Proof.
  intros Hb. induction d as [|d IH]; intros i ti tj Hi Hj Hne.
  - rewrite Nat.add_0_r in Hj. congruence.
  - replace (i + S d)%nat with (S (i + d)) in Hj by lia.
    destruct (lookup_lt_is_Some_2 (sitemon_history cfg clock site itv answers)
                (i + d)) as [t0 Ht0]; [apply lookup_lt_Some in Hj; lia|].
    specialize (IH i ti t0 Hi Ht0 Hne).
    assert (Hch : before tj = after t0).
    { rewrite sitemon_history_eq in Hj, Ht0.
      apply (history_chain site itv answers _ _ (i + d)%nat t0 tj Ht0 Hj). }
    destruct (lastFAIL_step site itv answers (S (i + d)) tj Hb Hj)
      as [[Heq|Hal] _].
    + rewrite Heq, Hch. exact IH.
    + destruct Hal as (_ & _ & _ & n & ->). apply stamp_nonempty.
Qed.

(** A property of the variables that every pass preserves holds before
    every pass of a run. *)
Lemma history_invariant (P : vars -> Prop) site itv answers :
  (forall r v n,
      good itv v -> count v < Shell.INTMAX_MAX -> P v ->
      P (fst (fst (cycle_flat cfg clock site itv r v n)))) ->
  forall v n i t,
    good itv v -> P v ->
    count v + Z.of_nat (length answers) <= Shell.INTMAX_MAX ->
    history cfg clock site itv answers v n !! i = Some t ->
    P (before t).
Proof.
  intros Hstep.
  induction answers as [|a rest IH]; intros v n i t Hg HP Hb Hl.
  - destruct i; discriminate.
  - simpl in Hl. rewrite observe_cycle in Hl.
    assert (Hlt : count v < Shell.INTMAX_MAX)
      by (simpl length in Hb; lia).
    pose proof (good_step cfg clock site itv a v n Hg Hlt) as Hg'.
    pose proof (count_step cfg clock site itv a v n Hg Hlt) as Hc'.
    pose proof (Hstep a v n Hg Hlt HP) as HP'.
    destruct (cycle_flat cfg clock site itv a v n) as [[v1 n1] e1] eqn:E.
    simpl in Hg', Hc', HP'.
    destruct i as [|i]; simpl in Hl.
    + injection Hl as <-. exact HP.
    + apply (IH v1 n1 i t Hg' HP'); [simpl length in Hb; lia | exact Hl].
Qed.

(** Twelve failures in a row cannot pass without [lastFAIL] being set. *)
Lemma lastFAIL_set_by_twelfth site itv answers i t :
  Z.of_nat (length answers) <= Shell.INTMAX_MAX ->
  sitemon_history cfg clock site itv answers !! i = Some t ->
  12 <= count (before t) -> lastFAIL (before t) <> "".
Proof.
  intros Hb Hl. rewrite sitemon_history_eq in Hl.
  apply (history_invariant (fun v => 12 <= count v -> lastFAIL v <> "")
           site itv answers) with (v := sitemon_locals) (n := 1%nat) (i := i);
    [| apply good_locals | simpl; lia | simpl; lia | exact Hl].
  intros r v n [Hc _] Hlt HP. unfold cycle_flat.
  destruct (Shell.test_eq r 200); cbn [fst count lastFAIL]; [lia|].
  rewrite add_small by lia. rewrite rem_mod by lia.
  destruct (_ mod 12 =? 0) eqn:Hm; [intros _; apply stamp_nonempty|].
  apply Z.eqb_neq in Hm. intros H12. apply HP.
  destruct (Z.eq_dec (count v + 1) 12) as [E|E]; [|lia].
  rewrite E in Hm. exfalso. apply Hm. reflexivity.
Qed.

(** No recovery report while [lastFAIL] is empty. *)
Lemma no_report_without_lastFAIL site itv answers i t :
  Z.of_nat (length answers) <= Shell.INTMAX_MAX ->
  sitemon_history cfg clock site itv answers !! i = Some t ->
  lastFAIL (before t) = "" ->
  back_online (events t) = [] /\ recovery_lines (events t) = [].
Proof.
  intros Hb Hl He.
  destruct (lastFAIL_step site itv answers i t Hb Hl) as [_ Hrep].
  split.
  - destruct (back_online (events t)); [reflexivity|].
    destruct Hrep as [Hne _]; [right; discriminate | congruence].
  - destruct (recovery_lines (events t)); [reflexivity|].
    destruct Hrep as [Hne _]; [left; discriminate | congruence].
Qed.

(** No recovery report before the first pass whose counter is a positive
    multiple of 12. *)
Lemma no_report_before_first_alert site itv answers i t :
  Z.of_nat (length answers) <= Shell.INTMAX_MAX ->
  sitemon_history cfg clock site itv answers !! i = Some t ->
  (forall j tj,
      (j < i)%nat ->
      sitemon_history cfg clock site itv answers !! j = Some tj ->
      ~ (0 < count (after tj) /\ count (after tj) mod 12 = 0)) ->
  back_online (events t) = [] /\ recovery_lines (events t) = [].
Proof.
  intros Hb Hl Hnone.
  apply (no_report_without_lastFAIL site itv answers i t Hb Hl).
  destruct (decide (lastFAIL (before t) = "")) as [He|Hne]; [exact He|].
  destruct (lastFAIL_origin site itv answers Hb i t Hl Hne)
    as (j & tj & Hj & Hlj & Hc).
  exfalso. apply (Hnone j tj Hj Hlj Hc).
Qed.

End Runs.

(** ** Properties of the monitor *)

(** C5. After every cycle the failure counter is the number of non-200
    answers since the most recent 200: a failed probe adds exactly one, a
    200 resets it to 0, and it is 0 whenever [status] is 1 (UP). *)
Theorem consecutive_failures_counter cfg clock site itv answers i t :
  Z.of_nat (length answers) <= Shell.INTMAX_MAX ->
  sitemon_history cfg clock site itv answers !! i = Some t ->
  count (after t) = Z.of_nat (failures_since_last_200 (take (S i) answers)) /\
  (Shell.test_eq (answer t) 200 = false ->
   count (after t) = count (before t) + 1) /\
  (Shell.test_eq (answer t) 200 = true -> count (after t) = 0) /\
  (status (before t) = 1 -> count (before t) = 0) /\
  (status (after t) = 1 -> count (after t) = 0).
Proof.
  intros Hb Hl.
  destruct (sitemon_history_lookup cfg clock site itv answers i t Hb Hl)
    as (Ha & Hg & Hlt & m & Hv & He).
  split.
  - rewrite sitemon_history_eq in Hl.
    rewrite (history_count cfg clock site itv answers sitemon_locals 1%nat i t);
      [apply count_after_failures | apply good_locals | simpl; lia | exact Hl].
  - rewrite Hv. unfold cycle_flat.
    destruct (Shell.test_eq (answer t) 200) eqn:Hok; simpl.
    + repeat split; try discriminate; try reflexivity.
      destruct Hg as [_ [[_ H0]|[H0 _]]]; [auto | intros; congruence].
    + split; [intros _; apply add_small; destruct Hg; lia|].
      split; [discriminate|].
      split; [|discriminate].
      destruct Hg as [_ [[_ H0]|[H0 _]]]; [auto | intros; congruence].
Qed.

Lemma consecutive_failures_counter_witness :
  exists t,
    sitemon_history cfg_ex clock_ex "3di.it/" 5
      ["200"; "500"; "404"; "200"; "000"; "503"] !! 5%nat = Some t /\
    count (after t) = 2 /\ count (before t) = 1.
Proof.
  eexists. split; [vm_compute; reflexivity|].
  match goal with |- count (after ?t) = _ /\ _ =>
    destruct (consecutive_failures_counter cfg_ex clock_ex "3di.it/" 5
                ["200"; "500"; "404"; "200"; "000"; "503"] 5%nat t)
      as (H1 & H2 & _)
  end; [vm_compute; discriminate | vm_compute; reflexivity |].
  split; [exact H1 | reflexivity].
Defined.

(** C2. An ALERT log line is written in a cycle exactly when the counter,
    after that cycle's increment, is positive and divisible by 12, and the
    line states [count * interval] seconds.  With interval 10 and 13 failed
    probes in a row the only ALERT is the one of the 12th cycle, stating
    120 seconds. *)
Theorem alert_on_every_twelfth_failure :
  (forall cfg clock site itv answers i t,
      0 < itv ->
      Z.of_nat (length answers) * itv <= Shell.INTMAX_MAX ->
      sitemon_history cfg clock site itv answers !! i = Some t ->
      (alerts (events t) <> [] <->
       0 < count (after t) /\ count (after t) mod 12 = 0) /\
      (forall ed, In ed (alerts (events t)) ->
                  ed = Some (count (after t) * itv))) /\
  (forall cfg clock site answers i t,
      length answers = 13%nat ->
      Forall failed answers ->
      sitemon_history cfg clock site 10 answers !! i = Some t ->
      alerts (events t) = if (i =? 11)%nat then [Some 120] else []).
Proof.
  assert (General : forall cfg clock site itv answers i t,
      0 < itv ->
      Z.of_nat (length answers) * itv <= Shell.INTMAX_MAX ->
      sitemon_history cfg clock site itv answers !! i = Some t ->
      alerts (events t) =
      if Shell.test_eq (answer t) 200 then []
      else if count (after t) mod 12 =? 0
           then [Some (count (after t) * itv)] else []).
  { intros cfg clock site itv answers i t Hitv Hb Hl.
    assert (Hb' : Z.of_nat (length answers) <= Shell.INTMAX_MAX) by nia.
    destruct (sitemon_history_lookup cfg clock site itv answers i t Hb' Hl)
      as (Ha & Hg & Hlt & m & Hv & He).
    rewrite He, Hv. unfold cycle_flat.
    destruct (Shell.test_eq (answer t) 200) eqn:Hok;
      cbn [fst snd count].
    - destruct (_ && _)%bool; autorewrite with readers; reflexivity.
    - destruct Hg as [Hc _].
      rewrite add_small by lia. rewrite rem_mod by lia.
      rewrite mul_small by (unfold Shell.INTMAX_MIN; nia).
      destruct (count (before t) <? 4), (_ mod 12 =? 0);
        autorewrite with readers; reflexivity. }
  split.
  - intros cfg clock site itv answers i t Hitv Hb Hl.
    rewrite (General cfg clock site itv answers i t Hitv Hb Hl).
    assert (Hb' : Z.of_nat (length answers) <= Shell.INTMAX_MAX) by nia.
    destruct (after_count cfg clock site itv answers i t Hb' Hl)
      as (Hpos & Hcnt).
    destruct (Shell.test_eq (answer t) 200) eqn:Hok.
    + rewrite Hcnt. split; [split; [congruence | lia]|].
      intros ed [].
    + destruct (count (after t) mod 12 =? 0) eqn:Hm.
      * apply Z.eqb_eq in Hm. split; [split; [intros _; lia | discriminate]|].
        intros ed [<-|[]]. reflexivity.
      * apply Z.eqb_neq in Hm. split; [split; [congruence | lia]|].
        intros ed [].
  - intros cfg clock site answers i t Hlen Hf Hl.
    assert (Hb : Z.of_nat (length answers) * 10 <= Shell.INTMAX_MAX)
      by (rewrite Hlen; unfold Shell.INTMAX_MAX; lia).
    rewrite (General cfg clock site 10 answers i t ltac:(lia) Hb Hl).
    assert (Hb' : Z.of_nat (length answers) <= Shell.INTMAX_MAX) by lia.
    destruct (sitemon_history_lookup cfg clock site 10 answers i t Hb' Hl)
      as (Ha & _).
    pose proof (lookup_lt_Some _ _ _ Ha) as Hi.
    assert (Hr : failed (answer t)).
    { rewrite Forall_forall in Hf. apply Hf.
      apply list_elem_of_lookup. eauto. }
    unfold failed in Hr. rewrite Hr.
    rewrite sitemon_history_eq in Hl.
    rewrite (history_count cfg clock site 10 answers sitemon_locals 1%nat i t);
      [| apply good_locals | simpl; lia | exact Hl].
    rewrite count_after_failed by (apply Forall_take; exact Hf).
    rewrite length_take. simpl count.
    replace (S i `min` length answers)%nat with (S i) by lia.
    destruct (Nat.eqb_spec i 11) as [->|Hne]; [reflexivity|].
    destruct (_ mod 12 =? 0) eqn:Hm; [|reflexivity].
    apply Z.eqb_eq in Hm. exfalso. rewrite Hlen in Hi.
    Z.to_euclidean_division_equations. lia.
Qed.

Lemma alert_on_every_twelfth_failure_witness :
  exists t,
    sitemon_history cfg_ex clock_ex "3di.it/" 10 (replicate 13 "500") !! 11%nat
    = Some t /\
    (alerts (events t) <> [] <->
     0 < count (after t) /\ count (after t) mod 12 = 0) /\
    alerts (events t) = [Some 120].
Proof.
  eexists. split; [vm_compute; reflexivity|]. split.
  - apply (proj1 alert_on_every_twelfth_failure cfg_ex clock_ex "3di.it/" 10
             (replicate 13 "500") 11%nat);
      [lia | vm_compute; discriminate | vm_compute; reflexivity].
  - apply (proj2 alert_on_every_twelfth_failure cfg_ex clock_ex "3di.it/"
             (replicate 13 "500") 11%nat);
      [reflexivity | repeat constructor | vm_compute; reflexivity].
Defined.

(** C6. On a failed probe the ordinary failure line, carrying the observed
    code, is written exactly when the counter for that cycle is between 1
    and 4; from the 5th failure on, a cycle that is not an alert cycle
    writes no log line at all. *)
Theorem ordinary_failure_lines_first_four cfg clock site itv answers i t :
  Z.of_nat (length answers) <= Shell.INTMAX_MAX ->
  sitemon_history cfg clock site itv answers !! i = Some t ->
  Shell.test_eq (answer t) 200 = false ->
  (failure_lines (events t) <> [] <-> 1 <= count (after t) <= 4) /\
  (forall code, In code (failure_lines (events t)) -> code = answer t) /\
  (4 < count (after t) -> count (after t) mod 12 <> 0 ->
   log_lines (events t) = []).
Proof.
  intros Hb Hl Hfail.
  destruct (sitemon_history_lookup cfg clock site itv answers i t Hb Hl)
    as (Ha & Hg & Hlt & m & Hv & He).
  destruct Hg as [Hc _].
  rewrite He, Hv. unfold cycle_flat. rewrite Hfail. cbn [fst snd count].
  rewrite add_small by lia. rewrite rem_mod by lia.
  destruct (count (before t) <? 4) eqn:H4;
    [apply Z.ltb_lt in H4 | apply Z.ltb_ge in H4];
    (destruct (_ mod 12 =? 0) eqn:Hm;
     [apply Z.eqb_eq in Hm | apply Z.eqb_neq in Hm]);
    autorewrite with readers; simpl.
  - split; [split; [intros _; lia | discriminate]|].
    split; [intros code [<-|[]]; reflexivity | intros; lia].
  - split; [split; [intros _; lia | discriminate]|].
    split; [intros code [<-|[]]; reflexivity | intros; lia].
  - split; [split; [congruence | lia]|].
    split; [intros code [] | intros; congruence].
  - split; [split; [congruence | lia]|].
    split; [intros code [] | reflexivity].
Qed.

Lemma ordinary_failure_lines_first_four_witness :
  exists t,
    sitemon_history cfg_ex clock_ex "3di.it/" 5
      ["500"; "500"; "500"; "503"; "500"] !! 3%nat = Some t /\
    count (after t) = 4 /\ failure_lines (events t) = ["503"].
Proof.
  eexists. split; [vm_compute; reflexivity|].
  match goal with |- count (after ?t) = _ /\ _ =>
    pose proof (ordinary_failure_lines_first_four cfg_ex clock_ex "3di.it/" 5
                  ["500"; "500"; "500"; "503"; "500"] 3%nat t) as H
  end.
  destruct H as (H1 & H2 & H3);
    [vm_compute; discriminate | vm_compute; reflexivity | reflexivity |].
  split; reflexivity.
Defined.

(** C10. [lastFAIL] changes only in a cycle whose incremented counter is a
    positive multiple of 12 and, once non-empty, stays non-empty; so the
    recovery report ("Last fail ..." line and "back online" notification),
    which is guarded by a non-empty [lastFAIL], can appear only after some
    earlier cycle of the run, in this or a previous outage, reached such a
    count. *)
Theorem last_fail_only_set_by_alert cfg clock site itv answers :
  Z.of_nat (length answers) <= Shell.INTMAX_MAX ->
  (forall i t,
      sitemon_history cfg clock site itv answers !! i = Some t ->
      (lastFAIL (after t) <> lastFAIL (before t) ->
       0 < count (after t) /\ count (after t) mod 12 = 0) /\
      (lastFAIL (before t) <> "" -> lastFAIL (after t) <> "") /\
      (recovery_lines (events t) <> [] \/ back_online (events t) <> [] ->
       exists j tj,
         (j < i)%nat /\
         sitemon_history cfg clock site itv answers !! j = Some tj /\
         0 < count (after tj) /\ count (after tj) mod 12 = 0)) /\
  (forall i j ti tj,
      (i <= j)%nat ->
      sitemon_history cfg clock site itv answers !! i = Some ti ->
      sitemon_history cfg clock site itv answers !! j = Some tj ->
      lastFAIL (after ti) <> "" -> lastFAIL (after tj) <> "").
Proof.
  intros Hb. split.
  - intros i t Hl.
    destruct (lastFAIL_step cfg clock site itv answers i t Hb Hl)
      as [Hstep Hrep].
    split; [|split].
    + intros Hne. destruct Hstep as [Heq | (Hp & Hm & _)];
        [congruence | auto].
    + intros Hne. destruct Hstep as [Heq | (_ & _ & _ & n & ->)];
        [congruence | apply stamp_nonempty].
    + intros Hr. destruct (Hrep Hr) as (Hne & _).
      apply (lastFAIL_origin cfg clock site itv answers Hb i t Hl Hne).
  - intros i j ti tj Hij Hi Hj.
    replace j with (i + (j - i))%nat in Hj by lia.
    apply (lastFAIL_kept cfg clock site itv answers Hb (j - i) i ti tj Hi Hj).
Qed.

Lemma last_fail_only_set_by_alert_witness :
  exists t12 t13 t15,
    sitemon_history cfg_ex clock_ex "3di.it/" 5
      (replicate 12 "500" ++ ["200"; "500"; "200"]) !! 11%nat = Some t12 /\
    sitemon_history cfg_ex clock_ex "3di.it/" 5
      (replicate 12 "500" ++ ["200"; "500"; "200"]) !! 12%nat = Some t13 /\
    sitemon_history cfg_ex clock_ex "3di.it/" 5
      (replicate 12 "500" ++ ["200"; "500"; "200"]) !! 14%nat = Some t15 /\
    lastFAIL (after t12) <> "" /\ lastFAIL (after t15) <> "" /\
    exists j tj,
      (j < 12)%nat /\
      sitemon_history cfg_ex clock_ex "3di.it/" 5
        (replicate 12 "500" ++ ["200"; "500"; "200"]) !! j = Some tj /\
      0 < count (after tj) /\ count (after tj) mod 12 = 0.
Proof.
  eexists; eexists; eexists.
  split; [vm_compute; reflexivity|].
  split; [vm_compute; reflexivity|].
  split; [vm_compute; reflexivity|].
  match goal with |- ?A /\ _ => assert (H12 : A) by (simpl; discriminate) end.
  split; [exact H12|]. split.
  - refine (proj2 (last_fail_only_set_by_alert cfg_ex clock_ex "3di.it/" 5
                     (replicate 12 "500" ++ ["200"; "500"; "200"]) _)
              11%nat 14%nat _ _ _ _ _ H12);
      [vm_compute; discriminate | lia | vm_compute; reflexivity
      | vm_compute; reflexivity].
  - refine (proj2 (proj2 (proj1 (last_fail_only_set_by_alert cfg_ex clock_ex
                                   "3di.it/" 5
                                   (replicate 12 "500" ++ ["200"; "500"; "200"])
                                   _)
                            12%nat _ _)) _);
      [vm_compute; discriminate | vm_compute; reflexivity
      | left; vm_compute; discriminate].
Defined.

(** C3, as the specification states it, fails: a 200 answer met with
    [status] 1 still writes "<site> response OK" to the per-site log. *)
Lemma routine_success_is_logged :
  ~ routine_success_is_silent cfg_ex clock_ex "3di.it/" 5 "200"
      sitemon_locals 1.
Proof.
  unfold routine_success_is_silent. intros H.
  specialize (H eq_refl eq_refl). vm_compute in H.
  destruct H as [H _]. discriminate H.
Qed.

(** C3, amended. A 200 answer met with [status] 1 (and so [count] 0)
    writes exactly one line, "<site> response OK", to the per-site log and
    to stderr, posts no notification, and changes no variable but
    [lastOK]. *)
Theorem routine_success_logs_ok_only cfg clock site itv r v n :
  Shell.test_eq r 200 = true -> status v = 1 -> count v = 0 ->
  observe (cycle cfg clock site itv r) v n =
  (set_lastOK (stamp clock (S n)) v, S (S n),
   [Probe site;
    Append (logfile cfg site) (Stamped (stamp clock n) (ResponseOK site));
    Stderr (Stamped (stamp clock n) (ResponseOK site));
    Sleep itv]).
Proof.
  intros Hok Hst Hc. rewrite observe_cycle. unfold cycle_flat.
  rewrite Hok, Hst. simpl andb. cbv iota.
  unfold set_lastOK. rewrite Hst, Hc. reflexivity.
Qed.

Lemma routine_success_logs_ok_only_witness :
  notifications
    (snd (observe (cycle cfg_ex clock_ex "3di.it/" 5 "200") sitemon_locals 1))
  = [] /\
  log_lines
    (snd (observe (cycle cfg_ex clock_ex "3di.it/" 5 "200") sitemon_locals 1))
  = [Stamped "2024-06-01 12:00:01" (ResponseOK "3di.it/")].
Proof.
  rewrite (routine_success_logs_ok_only cfg_ex clock_ex "3di.it/" 5 "200"
             sitemon_locals 1 eq_refl eq_refl eq_refl).
  split; reflexivity.
Defined.

Lemma notifications_posted cfg l :
  notifications (posted cfg l) = if disable_telegram cfg =? 0 then [l] else [].
Proof. unfold posted. destruct (disable_telegram cfg =? 0); reflexivity. Qed.

Lemma back_online_posted cfg l :
  back_online (posted cfg l) =
  if disable_telegram cfg =? 0 then back_online [Post l] else [].
Proof. unfold posted. destruct (disable_telegram cfg =? 0); reflexivity. Qed.

#[local] Hint Rewrite notifications_posted back_online_posted : readers.

(** C7. [log] mirrors a line to Telegram exactly when [status] is 0 at the
    moment it is called.  Along a run: the start line and the "response OK"
    line (written with [status] 1) are never posted; every line of a failed
    cycle (written after [status=0]) is; the "Last fail" line of a recovery
    is written before [status=1] and is posted too; and the only
    notification that is not the mirror of a log line is the explicit
    "back online" one. *)
Theorem log_mirrored_exactly_when_down :
  (forall cfg clock site m v n,
      let '(v', _, evs) := observe (log cfg clock site m) v n in
      v' = v /\ log_lines evs = [Stamped (stamp clock n) m] /\
      (status v = 0 -> disable_telegram cfg = 0 ->
       notifications evs = [Stamped (stamp clock (S n)) m]) /\
      (status v <> 0 -> notifications evs = [])) /\
  (forall cfg clock site,
      notifications
        (snd (observe (sitemon_begin cfg clock site) unset 0)) = []) /\
  (forall cfg clock site itv answers i t,
      disable_telegram cfg = 0 ->
      Z.of_nat (length answers) <= Shell.INTMAX_MAX ->
      sitemon_history cfg clock site itv answers !! i = Some t ->
      (Shell.test_eq (answer t) 200 = false ->
       status (after t) = 0 /\
       omap line_message (notifications (events t))
       = omap line_message (log_lines (events t))) /\
      (Shell.test_eq (answer t) 200 = true ->
       status (after t) = 1 /\
       exists (report : bool) s1 s2 s3,
         let m := LastFail (lastFAIL (before t)) (error_duration (before t)) in
         (report = true -> status (before t) = 0) /\
         log_lines (events t)
         = (if report then [Stamped s1 m] else [])
           ++ [Stamped s2 (ResponseOK site)] /\
         notifications (events t)
         = if report
           then [Stamped s3 m;
                 Bare (BackOnline site (error_duration (before t)))]
           else [])).
Proof.
  split; [|split].
  - intros cfg clock site m v n. rewrite observe_log.
    autorewrite with readers.
    split; [reflexivity|]. split; [reflexivity|]. split.
    + intros -> ->. reflexivity.
    + intros Hst. apply Z.eqb_neq in Hst. rewrite Hst. reflexivity.
  - intros cfg clock site. rewrite observe_begin. cbn [snd].
    autorewrite with readers. reflexivity.
  - intros cfg clock site itv answers i t Htg Hb Hl.
    destruct (sitemon_history_lookup cfg clock site itv answers i t Hb Hl)
      as (Ha & Hg & Hlt & m & Hv & He).
    rewrite He, Hv. unfold cycle_flat.
    destruct (Shell.test_eq (answer t) 200) eqn:Hok; cbn [fst snd status];
      [split; [discriminate|] | split; [|discriminate]];
      intros _; (split; [reflexivity|]).
    + destruct (status (before t) =? 0) eqn:Hst; simpl andb.
      * destruct (Shell.test_z (lastFAIL (before t))); simpl negb; cbv iota.
        -- exists false, "", (stamp clock m), "".
           autorewrite with readers. split; [discriminate|].
           split; reflexivity.
        -- exists true, (stamp clock m), (stamp clock (S (S m))),
             (stamp clock (S m)).
           autorewrite with readers. rewrite Htg.
           split; [intros _; apply Z.eqb_eq; exact Hst|].
           split; reflexivity.
      * exists false, "", (stamp clock m), "".
        autorewrite with readers. split; [discriminate|].
        split; reflexivity.
    + destruct (count (before t) <? 4),
        (Shell.rem (Shell.add (count (before t)) 1) 12 =? 0);
        autorewrite with readers; rewrite ?Htg; reflexivity.
Qed.

Lemma log_mirrored_exactly_when_down_witness :
  notifications
    (snd (observe (log cfg_ex clock_ex "3di.it/" (ResponseFail "3di.it/" "503"))
            (set_status 0 sitemon_locals) 7))
  = [Stamped "2024-06-01 12:00:08" (ResponseFail "3di.it/" "503")] /\
  exists t,
    sitemon_history cfg_ex clock_ex "3di.it/" 5 ["200"; "500"; "200"] !! 1%nat
    = Some t /\
    omap line_message (notifications (events t))
    = [ResponseFail "3di.it/" "500"].
Proof.
  split.
  - pose proof (proj1 log_mirrored_exactly_when_down cfg_ex clock_ex "3di.it/"
                  (ResponseFail "3di.it/" "503") (set_status 0 sitemon_locals)
                  7%nat) as H.
    rewrite observe_log in H. destruct H as (_ & _ & Hdown & _).
    rewrite observe_log. apply Hdown; reflexivity.
  - eexists. split; [vm_compute; reflexivity|].
    match goal with |- omap _ (notifications (events ?t)) = _ =>
      destruct (proj2 (proj2 log_mirrored_exactly_when_down)
                  cfg_ex clock_ex "3di.it/" 5 ["200"; "500"; "200"] 1%nat t)
        as [Hdown _]
    end; [reflexivity | vm_compute; discriminate | vm_compute; reflexivity |].
    destruct (Hdown eq_refl) as [_ ->]. reflexivity.
Defined.

(** For the 1000 three-digit codes [curl] can print, [test] says "equal to
    200" for "200" alone. *)
Lemma http_code_table :
  forallb
    (fun k => Bool.eqb (Shell.test_eq (http_code (Z.of_nat k)) 200)
                (Z.of_nat k =? 200))
    (seq 0 1000) = true.
Proof. vm_compute. reflexivity. Qed.

Lemma test_eq_http_code code :
  0 <= code <= 999 -> Shell.test_eq (http_code code) 200 = (code =? 200).
Proof.
  intros H. pose proof http_code_table as T.
  rewrite forallb_forall in T.
  specialize (T (Z.to_nat code)). rewrite Z2Nat.id in T by lia.
  apply Bool.eqb_prop, T, in_seq. lia.
Qed.

Lemma test_eq_legal r n :
  Shell.test_eq r n = true <-> Shell.legal_number r = Some n.
Proof.
  unfold Shell.test_eq. destruct (Shell.legal_number r) as [z|].
  - rewrite Z.eqb_eq. split; congruence.
  - split; discriminate.
Qed.

(** Seen from the variable [respcode] alone: a probe counts as a success
    exactly when the code it reports is
    200: the cycle then ends with [status] 1 and [count] 0; any other code
    (201, 204, 301, 404, 000 for no answer, ...) ends it with [status] 0
    and the counter incremented. *)
Theorem success_iff_code_is_200 :
  (forall cfg clock site itv r v n,
      let '(v', _, _) := observe (cycle cfg clock site itv r) v n in
      (Shell.legal_number r = Some 200 -> status v' = 1 /\ count v' = 0) /\
      (Shell.legal_number r <> Some 200 ->
       status v' = 0 /\ count v' = Shell.add (count v) 1)) /\
  (forall cfg clock site itv code v n,
      0 <= code <= 999 ->
      let '(v', _, _) :=
        observe (cycle cfg clock site itv (http_code code)) v n in
      (code = 200 -> status v' = 1 /\ count v' = 0) /\
      (code <> 200 -> status v' = 0 /\ count v' = Shell.add (count v) 1)).
Proof.
  split.
  - intros cfg clock site itv r v n. rewrite observe_cycle. unfold cycle_flat.
    destruct (Shell.test_eq r 200) eqn:Hok; simpl.
    + apply test_eq_legal in Hok. split; [auto | congruence].
    + split; [|auto]. intros H. apply test_eq_legal in H. congruence.
  - intros cfg clock site itv code v n Hc. rewrite observe_cycle.
    unfold cycle_flat. rewrite (test_eq_http_code code Hc).
    destruct (Z.eqb_spec code 200) as [->|Hne]; simpl.
    + split; [auto | congruence].
    + split; [congruence | auto].
Qed.

Lemma success_iff_code_is_200_witness :
  status (fst (fst (observe (cycle cfg_ex clock_ex "3di.it/" 5 (http_code 204))
                      sitemon_locals 1))) = 0 /\
  status (fst (fst (observe (cycle cfg_ex clock_ex "3di.it/" 5 (http_code 200))
                      sitemon_locals 1))) = 1.
Proof.
  pose proof (proj2 success_iff_code_is_200 cfg_ex clock_ex "3di.it/" 5 204
                sitemon_locals 1%nat ltac:(lia)) as H204.
  pose proof (proj2 success_iff_code_is_200 cfg_ex clock_ex "3di.it/" 5 200
                sitemon_locals 1%nat ltac:(lia)) as H200.
  destruct (observe (cycle cfg_ex clock_ex "3di.it/" 5 (http_code 204))
              sitemon_locals 1) as [[v1 n1] e1].
  destruct (observe (cycle cfg_ex clock_ex "3di.it/" 5 (http_code 200))
              sitemon_locals 1) as [[v2 n2] e2].
  simpl. split.
  - apply H204. lia.
  - apply H200. reflexivity.
Defined.

(** ** The history is the run *)

(** The trace of [sitemon] is its start line followed by the events of the
    passes of its history, in order. *)
Lemma cycles_run cfg clock site itv answers :
  forall v n tr,
    trace (snd (snd (cycles cfg clock site itv answers
                       (v, {| ticks := n; trace := tr |}))))
    = tr ++ concat (map events (history cfg clock site itv answers v n)).
Proof.
  induction answers as [|a rest IH]; intros v n tr; simpl.
  - rewrite app_nil_r. reflexivity.
  - unfold bind at 1. rewrite cycle_run, observe_cycle.
    destruct (cycle_flat cfg clock site itv a v n) as [[v1 n1] e1].
    rewrite IH. simpl. rewrite app_assoc. reflexivity.
Qed.

Lemma sitemon_trace_history cfg clock site itv answers :
  sitemon_trace cfg clock site itv answers
  = logged cfg clock site 0 (MonitoringStarted site (PID cfg)) 1
    ++ concat (map events (sitemon_history cfg clock site itv answers)).
Proof.
  unfold sitemon_trace, sitemon. unfold bind at 1.
  pose proof (observe_begin cfg clock site) as Hb. unfold observe in Hb.
  destruct (sitemon_begin cfg clock site
              (unset, {| ticks := 0; trace := [] |}))
    as [u [v0 [n0 tr0]]].
  simpl in Hb. injection Hb as -> -> ->.
  rewrite cycles_run, sitemon_history_eq. reflexivity.
Qed.

(** The per-site log after 13 failed probes, interval 10, as text. *)
Example log_text_of_thirteen_failures :
  map render
    (log_lines (sitemon_trace cfg_ex clock_ex "3di.it/" 10 (replicate 13 "500")))
  = ["[2024-06-01 12:00:00] Monitoring started for 3di.it/ (PID 4242)";
     "[2024-06-01 12:00:01] 3di.it/ response FAIL with code 500";
     "[2024-06-01 12:00:03] 3di.it/ response FAIL with code 500";
     "[2024-06-01 12:00:05] 3di.it/ response FAIL with code 500";
     "[2024-06-01 12:00:07] 3di.it/ response FAIL with code 500";
     "[2024-06-01 12:00:09] ALERT: 3di.it/ DOWN! for 120 seconds. Last ok: "].
Proof. vm_compute. reflexivity. Qed.

(** The notifications of 13 failed probes and a recovery, interval 5. *)
Example notification_text_of_long_outage :
  map render
    (notifications
       (sitemon_trace cfg_ex clock_ex "3di.it/" 5
          (replicate 13 "500" ++ ["200"])))
  = ["[2024-06-01 12:00:02] 3di.it/ response FAIL with code 500";
     "[2024-06-01 12:00:04] 3di.it/ response FAIL with code 500";
     "[2024-06-01 12:00:06] 3di.it/ response FAIL with code 500";
     "[2024-06-01 12:00:08] 3di.it/ response FAIL with code 500";
     "[2024-06-01 12:00:10] ALERT: 3di.it/ DOWN! for 60 seconds. Last ok: ";
     "[2024-06-01 12:00:13] Last fail: 2024-06-01 12:00:11 lasted 65 seconds";
     "3di.it/ is back online. Downtime was 65 seconds"].
Proof. vm_compute. reflexivity. Qed.

(** When [lastFAIL] is set and Telegram is enabled, a recovery is
    reported: one "Last fail" line and one "back online" notification,
    both stating the number of failures of the outage times the
    interval. *)
Lemma recovery_reported_once_lastFAIL_is_set cfg clock site itv answers i t :
  disable_telegram cfg = 0 ->
  0 < itv ->
  Z.of_nat (length answers) * itv <= Shell.INTMAX_MAX ->
  sitemon_history cfg clock site itv answers !! i = Some t ->
  Shell.test_eq (answer t) 200 = true ->
  status (before t) = 0 ->
  lastFAIL (before t) <> "" ->
  back_online (events t) = [Some (count (before t) * itv)] /\
  recovery_lines (events t)
  = [(lastFAIL (before t), Some (count (before t) * itv))].
Proof.
  intros Htg Hitv Hb Hl Hok Hst Hne.
  assert (Hb' : Z.of_nat (length answers) <= Shell.INTMAX_MAX) by nia.
  destruct (sitemon_history_lookup cfg clock site itv answers i t Hb' Hl)
    as (Ha & Hg & Hlt & m & Hv & He).
  rewrite He. unfold cycle_flat. rewrite Hok, Hst. simpl andb.
  destruct (Shell.test_z (lastFAIL (before t))) eqn:Hz.
  - destruct (lastFAIL (before t)); [congruence | discriminate].
  - simpl negb. cbv iota. cbn [snd]. autorewrite with readers. rewrite Htg.
    destruct Hg as [Hc [[H1 _]|(_ & Hpos & Hed)]]; [congruence|].
    rewrite Hed. rewrite mul_small by (unfold Shell.INTMAX_MIN; nia).
    split; reflexivity.
Qed.

(** ** Start-up *)

Lemma replay_app fs a b : replay fs (a ++ b) = replay (replay fs a) b.
Proof. unfold replay. apply foldl_app. Qed.

Lemma replay_posted cfg fs l : replay fs (posted cfg l) = fs.
Proof. unfold posted. destruct (disable_telegram cfg =? 0); reflexivity. Qed.

Lemma clear_site_logs_run cfg sites :
  forall v n tr,
    clear_site_logs cfg sites (v, {| ticks := n; trace := tr |})
    = (tt, (v, {| ticks := n; trace := tr ++ clear_events cfg sites |})).
Proof.
  induction sites as [|s rest IH]; intros v n tr; simpl.
  - unfold ret. rewrite app_nil_r. reflexivity.
  - unfold bind, emit. simpl. rewrite IH. rewrite <- !app_assoc. reflexivity.
Qed.

(** After [clear_site_logs] every per-site log holds the one empty line
    written by [echo]; no other file is touched. *)
Lemma replay_clear_events cfg sites :
  forall (fs : gmap string (list line)) path,
    replay fs (clear_events cfg sites) !! path
    = if decide (Exists (fun site => path = logfile cfg site) sites)
      then Some [Blank] else fs !! path.
Proof.
  induction sites as [|s rest IH]; intros fs path.
  - reflexivity.
  - change (clear_events cfg (s :: rest))
      with ([Truncate (logfile cfg s); Append (logfile cfg s) Blank]
            ++ clear_events cfg rest).
    rewrite replay_app, IH. clear IH.
    unfold replay. cbn [foldl apply_event].
    destruct (decide (Exists (fun site => path = logfile cfg site) rest))
      as [Hr|Hr].
    + rewrite decide_True by (right; exact Hr). reflexivity.
    + destruct (decide (path = logfile cfg s)) as [->|Hne].
      * rewrite decide_True by (left; reflexivity).
        rewrite lookup_insert_eq, lookup_insert_eq. reflexivity.
      * rewrite decide_False
          by (intros H; inversion H; subst; contradiction).
        rewrite !lookup_insert_ne by congruence. reflexivity.
Qed.

Lemma startup_trace cfg clock outer_tee_first v :
  snd (observe (startup cfg clock outer_tee_first) v 0) =
  if flush_log_on_start cfg =? 0 then
    let m := ScriptStarted (PID cfg) in
    let service :=
      [Append (LOG_FILE cfg) (Stamped (stamp clock 0) m);
       Stderr (Stamped (stamp clock 0) m)]
      ++ posted cfg (Stamped (stamp clock 1) m) in
    (if outer_tee_first then Truncate (LOG_FILE cfg) :: service
     else service ++ [Truncate (LOG_FILE cfg)])
    ++ posted cfg (Bare (ScriptStartedOn (HOSTNAME cfg) (PID cfg)))
  else
    clear_events cfg (SITES cfg)
    ++ [Truncate (LOG_FILE cfg);
        Append (LOG_FILE cfg)
          (Stamped (stamp clock 0) (ScriptStartedFlush (PID cfg)));
        Stderr (Stamped (stamp clock 0) (ScriptStartedFlush (PID cfg)))]
    ++ posted cfg (Stamped (stamp clock 1) (ScriptStarted (PID cfg))).
Proof.
  unfold observe, startup.
  destruct (flush_log_on_start cfg =? 0).
  - unfold posted.
    destruct outer_tee_first, (disable_telegram cfg =? 0) eqn:Htg;
      unfold log_service, send_telegram_message, when, bind, date, get,
        modify, emit, ret; simpl; rewrite ?Htg; reflexivity.
  - unfold bind at 1. rewrite clear_site_logs_run. unfold posted.
    destruct (disable_telegram cfg =? 0) eqn:Htg;
      unfold send_telegram_message, when, bind, date, get,
        modify, emit, ret; simpl; rewrite ?Htg; simpl;
      rewrite <- ?app_assoc; reflexivity.
Qed.

(** C8, as the specification states it, fails: with [flush_log_on_start]
    at 1 the earlier content of the aggregate log is gone after start-up
    (the started record is the only line, it was not appended), and every
    per-site log holds one empty line rather than nothing. *)
Lemma startup_does_not_append :
  ~ startup_as_specified cfg_ex clock_ex true sitemon_locals fs_ex.
Proof.
  intros [(l & _ & Hagg) _]. vm_compute in Hagg.
  injection Hagg as Hold _. discriminate Hold.
Qed.

(** The same with [flush_log_on_start] at 0, whichever side of the pipe
    reaches the aggregate log first. *)
Lemma startup_keep_does_not_append outer_tee_first :
  ~ startup_as_specified cfg_keep clock_ex outer_tee_first sitemon_locals
      fs_ex.
Proof.
  intros [(l & _ & Hagg) _].
  destruct outer_tee_first; vm_compute in Hagg; discriminate Hagg.
Qed.

(** With [flush_log_on_start] at 0, what is left in the aggregate log
    depends on which side of the pipe opened it first: the started record
    alone, or nothing at all. *)
Lemma startup_keep_aggregate_log cfg clock outer_tee_first v
    (fs : gmap string (list line)) :
  flush_log_on_start cfg = 0 ->
  startup_files cfg clock outer_tee_first v fs !! LOG_FILE cfg
  = Some (if outer_tee_first
          then [Stamped (stamp clock 0) (ScriptStarted (PID cfg))]
          else []).
Proof.
  intros Hflag. unfold startup_files. rewrite startup_trace, Hflag.
  simpl Z.eqb. cbv iota zeta. rewrite replay_app, replay_posted.
  destruct outer_tee_first.
  - change (Truncate (LOG_FILE cfg) :: ?s)
      with ([Truncate (LOG_FILE cfg)] ++ s).
    rewrite !replay_app, replay_posted. unfold replay.
    cbn [foldl apply_event]. rewrite !lookup_insert_eq. reflexivity.
  - rewrite !replay_app, replay_posted. unfold replay.
    cbn [foldl apply_event]. rewrite !lookup_insert_eq. reflexivity.
Qed.

(** C8, amended. With [flush_log_on_start] at 0 the started record is
    written to the aggregate log by [log_service] and every other file,
    the per-site logs among them, is left as it was.  Otherwise every
    per-site log is overwritten first, so that no earlier record remains in
    it, and then the aggregate log is overwritten, not appended to: it
    holds the started record alone; no other file changes. *)
Theorem startup_overwrites_logs cfg clock outer_tee_first v
    (fs : gmap string (list line)) :
  let fs' := startup_files cfg clock outer_tee_first v fs in
  (flush_log_on_start cfg = 0 ->
   In (Append (LOG_FILE cfg)
         (Stamped (stamp clock 0) (ScriptStarted (PID cfg))))
      (snd (observe (startup cfg clock outer_tee_first) v 0)) /\
   (forall path, path <> LOG_FILE cfg -> fs' !! path = fs !! path)) /\
  (flush_log_on_start cfg <> 0 ->
   fs' !! LOG_FILE cfg
   = Some [Stamped (stamp clock 0) (ScriptStartedFlush (PID cfg))] /\
   (forall site,
       In site (SITES cfg) -> logfile cfg site <> LOG_FILE cfg ->
       exists content,
         fs' !! logfile cfg site = Some content /\
         omap line_message content = []) /\
   (forall path,
       path <> LOG_FILE cfg ->
       (forall site, In site (SITES cfg) -> path <> logfile cfg site) ->
       fs' !! path = fs !! path)).
Proof.
  unfold startup_files. rewrite startup_trace. split.
  - intros Hflag. rewrite Hflag. simpl Z.eqb. cbv iota zeta. split.
    + destruct outer_tee_first; rewrite !in_app_iff; simpl; auto.
    + rewrite replay_app, replay_posted.
      destruct outer_tee_first.
      * change (Truncate (LOG_FILE cfg) :: ?s)
          with ([Truncate (LOG_FILE cfg)] ++ s).
        rewrite !replay_app, replay_posted. unfold replay.
        cbn [foldl apply_event].
        intros path Hne. rewrite !lookup_insert_ne by congruence.
        reflexivity.
      * rewrite !replay_app, replay_posted. unfold replay.
        cbn [foldl apply_event].
        intros path Hne. rewrite !lookup_insert_ne by congruence.
        reflexivity.
  - intros Hflag. apply Z.eqb_neq in Hflag. rewrite Hflag.
    rewrite !replay_app, replay_posted.
    set (fs1 := replay fs (clear_events cfg (SITES cfg))).
    assert (Hfs1 : forall path,
               fs1 !! path
               = if decide (Exists (fun site => path = logfile cfg site)
                              (SITES cfg))
                 then Some [Blank] else fs !! path)
      by (intros path; apply replay_clear_events).
    clearbody fs1. unfold replay. cbn [foldl apply_event].
    split; [|split].
    + rewrite !lookup_insert_eq. reflexivity.
    + intros site Hin Hne. exists [Blank]. split; [|reflexivity].
      rewrite !lookup_insert_ne by congruence.
      rewrite Hfs1.
      rewrite decide_True
        by (apply Exists_exists; exists site; split;
            [apply list_elem_of_In; exact Hin | reflexivity]).
      reflexivity.
    + intros path Hne Hsites. rewrite !lookup_insert_ne by congruence.
      rewrite Hfs1.
      rewrite decide_False; [reflexivity|].
      intros H. apply Exists_exists in H. destruct H as (site & Hin & ->).
      apply (Hsites site); [apply list_elem_of_In; exact Hin | reflexivity].
Qed.

Lemma startup_overwrites_logs_witness :
  startup_files cfg_ex clock_ex true sitemon_locals fs_ex
    !! "/var/log/sitemon.log"
  = Some [Stamped "2024-06-01 12:00:00" (ScriptStartedFlush "4242")] /\
  startup_files cfg_keep clock_ex true sitemon_locals fs_ex
    !! "/var/log/sitemon/3di.it_.log"
  = Some [Stamped "2024-05-31 08:00:01" (ResponseOK "3di.it/")].
Proof.
  split.
  - apply (proj2 (startup_overwrites_logs cfg_ex clock_ex true sitemon_locals
                    fs_ex)).
    vm_compute. discriminate.
  - rewrite (proj2 (proj1 (startup_overwrites_logs cfg_keep clock_ex true
                             sitemon_locals fs_ex) eq_refl)
               "/var/log/sitemon/3di.it_.log");
      [vm_compute; reflexivity | vm_compute; discriminate].
Defined.

(** ** The SIGTERM trap *)

(** The handler, run once, writes one shutdown line to the aggregate log,
    asks [pkill] to signal the children of the script, and exits with
    status 0. *)
Lemma on_sigterm_trace cfg clock v n :
  snd (observe (on_sigterm cfg clock) v n) =
  [Append (LOG_FILE cfg)
     (Stamped (stamp clock n) (ReceivedSigterm (HOSTNAME cfg)));
   Stderr (Stamped (stamp clock n) (ReceivedSigterm (HOSTNAME cfg)))]
  ++ posted cfg (Stamped (stamp clock (S n)) (ReceivedSigterm (HOSTNAME cfg)))
  ++ [Pkill (PID cfg); Exit 0].
Proof.
  unfold observe, on_sigterm, posted.
  destruct (disable_telegram cfg =? 0) eqn:Htg;
    unfold log_service, send_telegram_message, when, bind, date, get,
      modify, emit, ret; simpl; rewrite ?Htg; reflexivity.
Qed.

(** ** Recovery reports *)

(** The scenario of the specification for recoveries: interval 5, answers
    200, 200, 500, 500, 200.  The states are UP, UP, DOWN(1), DOWN(2), UP
    and [error_duration] is 10 at the end, but the recovery goes
    unreported: no "Last fail" line and no "back online" notification,
    because [lastFAIL] is still empty. *)
Lemma short_outage_recovery_unreported :
  let answers := ["200"; "200"; "500"; "500"; "200"] in
  let h := sitemon_history cfg_ex clock_ex "3di.it/" 5 answers in
  map (fun t => (status (after t), count (after t))) h
  = [(1, 0); (1, 0); (0, 1); (0, 2); (1, 0)] /\
  map (fun t => error_duration (after t)) h
  = [None; None; Some 5; Some 10; Some 10] /\
  map (fun t => lastFAIL (after t)) h = [""; ""; ""; ""; ""] /\
  back_online (sitemon_trace cfg_ex clock_ex "3di.it/" 5 answers) = [] /\
  recovery_lines (sitemon_trace cfg_ex clock_ex "3di.it/" 5 answers) = [].
Proof. vm_compute. repeat split. Qed.

(** C1, as the specification states it, fails: with interval 5 and answers
    200, 200, 500, 500, 200 the fifth pass is a DOWN->UP transition after
    two failures, and no "back online" notification is posted. *)
Lemma recovery_after_short_outage_not_notified :
  ~ recovery_always_notified cfg_ex clock_ex "3di.it/" 5
      ["200"; "200"; "500"; "500"; "200"].
Proof.
  intros H.
  destruct (lookup_lt_is_Some_2
              (sitemon_history cfg_ex clock_ex "3di.it/" 5
                 ["200"; "200"; "500"; "500"; "200"]) 4)
    as [t Ht]; [vm_compute; lia|].
  destruct (H 4%nat t Ht) as [Hb _].
  - vm_compute in Ht. injection Ht as <-. reflexivity.
  - vm_compute in Ht. injection Ht as <-. reflexivity.
  - vm_compute in Ht. injection Ht as <-. vm_compute in Hb. discriminate Hb.
Qed.

(** C1, amended. On a DOWN->UP transition that ends an outage of at least
    12 failed probes, the monitor logs one "Last fail" line and posts
    exactly one "back online" notification, and the downtime both state is
    the number of failures before the reset times the interval.  As long
    as no cycle of the run has reached a positive multiple of 12 failures
    it reports no recovery at all; so with interval 5 and answers
    200, 200, 500, 500, 200 nothing is reported in any cycle. *)
Theorem recovery_reported_after_alert :
  (forall cfg clock site itv answers i t,
      disable_telegram cfg = 0 ->
      0 < itv ->
      Z.of_nat (length answers) * itv <= Shell.INTMAX_MAX ->
      sitemon_history cfg clock site itv answers !! i = Some t ->
      Shell.test_eq (answer t) 200 = true ->
      status (before t) = 0 ->
      (12 <= count (before t) ->
       back_online (events t) = [Some (count (before t) * itv)] /\
       recovery_lines (events t)
       = [(lastFAIL (before t), Some (count (before t) * itv))]) /\
      ((forall j tj,
           (j < i)%nat ->
           sitemon_history cfg clock site itv answers !! j = Some tj ->
           count (after tj) < 12) ->
       back_online (events t) = [] /\ recovery_lines (events t) = [])) /\
  (forall cfg clock site i t,
      sitemon_history cfg clock site 5 ["200"; "200"; "500"; "500"; "200"] !! i
      = Some t ->
      back_online (events t) = [] /\ recovery_lines (events t) = []).
Proof.
  split.
  - intros cfg clock site itv answers i t Htg Hitv Hb Hl Hok Hst.
    assert (Hb' : Z.of_nat (length answers) <= Shell.INTMAX_MAX) by nia.
    split.
    + intros H12.
      apply (recovery_reported_once_lastFAIL_is_set cfg clock site itv answers
               i t Htg Hitv Hb Hl Hok Hst).
      apply (lastFAIL_set_by_twelfth cfg clock site itv answers i t Hb' Hl H12).
    + intros Hnone.
      apply (no_report_before_first_alert cfg clock site itv answers i t Hb' Hl).
      intros j tj Hj Hlj [Hpos Hmod]. specialize (Hnone j tj Hj Hlj).
      Z.to_euclidean_division_equations. lia.
  - intros cfg clock site i t Hl.
    set (answers := ["200"; "200"; "500"; "500"; "200"]) in *.
    assert (Hb : Z.of_nat (length answers) <= Shell.INTMAX_MAX)
      by (vm_compute; discriminate).
    assert (Hb0 : count sitemon_locals + Z.of_nat (length answers)
                  <= Shell.INTMAX_MAX)
      by (vm_compute; discriminate).
    apply (no_report_before_first_alert cfg clock site 5 answers i t Hb Hl).
    intros j tj _ Hlj [Hpos Hmod].
    destruct (sitemon_history_lookup cfg clock site 5 answers j tj Hb Hlj)
      as (Ha & _).
    rewrite sitemon_history_eq in Hlj.
    rewrite (history_count cfg clock site 5 answers sitemon_locals 1%nat j tj
               (good_locals 5) Hb0 Hlj)
      in Hpos, Hmod.
    apply lookup_lt_Some in Ha. subst answers. simpl in Ha.
    do 5 (destruct j as [|j];
          [vm_compute in Hpos, Hmod;
           first [discriminate Hpos | discriminate Hmod]|]).
    lia.
Qed.

Lemma recovery_reported_after_alert_witness :
  exists t14 t5,
    sitemon_history cfg_ex clock_ex "3di.it/" 5
      (replicate 13 "500" ++ ["200"]) !! 13%nat = Some t14 /\
    back_online (events t14) = [Some 65] /\
    sitemon_history cfg_ex clock_ex "3di.it/" 5
      ["200"; "200"; "500"; "500"; "200"] !! 4%nat = Some t5 /\
    back_online (events t5) = [].
Proof.
  eexists; eexists.
  split; [vm_compute; reflexivity|]. split; [|split].
  - match goal with |- back_online (events ?t) = _ =>
      destruct (proj1 recovery_reported_after_alert cfg_ex clock_ex "3di.it/" 5
                  (replicate 13 "500" ++ ["200"]) 13%nat t)
        as [Hrep _]
    end;
      [reflexivity | lia | vm_compute; discriminate | vm_compute; reflexivity
      | reflexivity | reflexivity |].
    destruct Hrep as [Hb _]; [vm_compute; discriminate | exact Hb].
  - vm_compute; reflexivity.
  - match goal with |- back_online (events ?t) = _ =>
      apply (proj2 recovery_reported_after_alert cfg_ex clock_ex "3di.it/"
               4%nat t)
    end.
    vm_compute; reflexivity.
Defined.

(** ** Further properties of the script *)

(** *** Log file names *)

Lemma subst_slash_no_slash s : has_slash (Shell.subst_slash s) = false.
Proof.
  induction s as [|c r IH]; simpl; [reflexivity|].
  rewrite IH. destruct (Ascii.eqb c "/") eqn:E; [reflexivity|].
  rewrite E. reflexivity.
Qed.

Lemma subst_slash_fixed s :
  has_slash s = false -> Shell.subst_slash s = s.
Proof.
  induction s as [|c r IH]; simpl; [reflexivity|].
  intros H. apply orb_false_iff in H as [Hc Hr].
  rewrite Hc, (IH Hr). reflexivity.
Qed.

(** X1. The name of a per-site log contains no slash, has the length of the
    site name, and is not changed by a second substitution; so a site and
    the site named like its log share one log file. *)
Theorem site_log_name_is_flat cfg site :
  has_slash (Shell.subst_slash site) = false /\
  String.length (Shell.subst_slash site) = String.length site /\
  Shell.subst_slash (Shell.subst_slash site) = Shell.subst_slash site /\
  logfile cfg (Shell.subst_slash site) = logfile cfg site.
Proof.
  assert (Hid : Shell.subst_slash (Shell.subst_slash site)
                = Shell.subst_slash site)
    by apply subst_slash_fixed, subst_slash_no_slash.
  split; [apply subst_slash_no_slash|]. split; [|split; [exact Hid|]].
  - clear Hid.
    induction site as [|c r IH]; simpl; [reflexivity | rewrite IH; reflexivity].
  - unfold logfile. rewrite Hid. reflexivity.
Qed.

(** *** Integers stored as text *)

Lemma digit_val_pretty_char (d : N) :
  (d < 10)%N -> Shell.digit_val (pretty_N_char d) = Some (Z.of_N d).
Proof.
  intros H.
  assert (d = 0 \/ d = 1 \/ d = 2 \/ d = 3 \/ d = 4 \/ d = 5 \/ d = 6
          \/ d = 7 \/ d = 8 \/ d = 9)%N as Hd by lia.
  repeat (destruct Hd as [->|Hd]; [reflexivity|]). subst d. reflexivity.
Qed.

(** Reading the digits printed for [x] from an empty accumulator gives [x]
    back and goes on with what follows them. *)
Lemma read_digits_pretty_go (x : N) :
  forall s,
    Shell.read_digits None (pretty_N_go x s)
    = Shell.read_digits (if decide (x = 0%N) then None else Some (Z.of_N x)) s.
Proof.
  induction (N.lt_wf_0 x) as [x _ IH]. intros s.
  destruct (decide (x = 0%N)) as [->|Hx]; [reflexivity|].
  rewrite pretty_N_go_step by lia.
  rewrite IH by (apply N.div_lt; lia).
  cbn [Shell.read_digits].
  rewrite digit_val_pretty_char by (apply N.mod_lt; lia).
  f_equal. f_equal.
  pose proof (N.div_mod x 10 ltac:(discriminate)) as Hdm.
  remember (x `mod` 10)%N as m eqn:Hm. remember (x `div` 10)%N as q eqn:Hq.
  clear Hm Hq IH.
  destruct (decide (q = 0%N)) as [E|E]; unfold default; cbn [from_option id];
    lia.
Qed.

(** What is printed for a positive number starts with a digit. *)
Lemma pretty_go_head (x : N) :
  forall s, (0 < x)%N ->
    exists d r, (d < 10)%N /\ pretty_N_go x s = String (pretty_N_char d) r.
Proof.
  induction (N.lt_wf_0 x) as [x _ IH]. intros s Hx.
  rewrite pretty_N_go_step by lia.
  destruct (decide (x `div` 10 = 0)%N) as [E|E].
  - rewrite E, pretty_N_go_0. exists (x `mod` 10)%N, s.
    split; [apply N.mod_lt; lia | reflexivity].
  - apply IH; [apply N.div_lt; lia | apply N.neq_0_lt_0, E].
Qed.

(** A string that starts with a digit is read without skipping anything. *)
Lemma legal_number_digit_head d r :
  (d < 10)%N ->
  Shell.legal_number (String (pretty_N_char d) r) =
  match Shell.read_digits None (String (pretty_N_char d) r) with
  | (Some v, rest) =>
      if ((Shell.INTMAX_MIN <=? v) && (v <=? Shell.INTMAX_MAX))%bool then
        match Shell.skip Shell.whitespace rest with
        | EmptyString => Some v
        | _ => None
        end
      else None
  | (None, _) => None
  end.
Proof.
  intros H.
  assert (d = 0 \/ d = 1 \/ d = 2 \/ d = 3 \/ d = 4 \/ d = 5 \/ d = 6
          \/ d = 7 \/ d = 8 \/ d = 9)%N as Hd by lia.
  repeat (destruct Hd as [->|Hd]; [reflexivity|]). subst d. reflexivity.
Qed.

Lemma legal_number_pretty_pos (p : positive) :
  Z.pos p <= Shell.INTMAX_MAX ->
  Shell.legal_number (pretty (Z.pos p)) = Some (Z.pos p).
Proof.
  intros Hr.
  change (pretty (Z.pos p)) with (pretty_N_go (N.pos p) "").
  destruct (pretty_go_head (N.pos p) "" ltac:(lia)) as (d & r & Hd & E).
  rewrite E, (legal_number_digit_head d r Hd), <- E.
  rewrite read_digits_pretty_go. cbn [Shell.read_digits].
  destruct (decide (N.pos p = 0%N)) as [H0|_]; [discriminate|].
  change (Z.of_N (N.pos p)) with (Z.pos p).
  replace (Shell.INTMAX_MIN <=? Z.pos p) with true
    by (symmetry; apply Z.leb_le; unfold Shell.INTMAX_MIN; lia).
  replace (Z.pos p <=? Shell.INTMAX_MAX) with true
    by (symmetry; apply Z.leb_le; exact Hr).
  reflexivity.
Qed.

Lemma legal_number_pretty_neg (p : positive) :
  Shell.INTMAX_MIN <= Z.neg p ->
  Shell.legal_number (pretty (Z.neg p)) = Some (Z.neg p).
Proof.
  intros Hr.
  change (pretty (Z.neg p)) with (String "-" (pretty_N_go (N.pos p) "")).
  unfold Shell.legal_number. cbn [Shell.skip].
  change (Shell.isspace "-") with false. cbv iota.
  rewrite read_digits_pretty_go. cbn [Shell.read_digits].
  destruct (decide (N.pos p = 0%N)) as [H0|_]; [discriminate|].
  change (Z.of_N (N.pos p)) with (Z.pos p).
  change (- Z.pos p) with (Z.neg p).
  replace (Shell.INTMAX_MIN <=? Z.neg p) with true
    by (symmetry; apply Z.leb_le; exact Hr).
  replace (Z.neg p <=? Shell.INTMAX_MAX) with true
    by (symmetry; apply Z.leb_le; unfold Shell.INTMAX_MAX; lia).
  reflexivity.
Qed.

Lemma legal_number_pretty z :
  Shell.INTMAX_MIN <= z <= Shell.INTMAX_MAX ->
  Shell.legal_number (pretty z) = Some z.
Proof.
  intros [Hlo Hhi]. destruct z as [|p|p].
  - reflexivity.
  - apply legal_number_pretty_pos, Hhi.
  - apply legal_number_pretty_neg, Hlo.
Qed.

Lemma intmax_wrap_range z :
  Shell.INTMAX_MIN <= Shell.intmax_wrap z <= Shell.INTMAX_MAX.
Proof.
  unfold Shell.intmax_wrap, Shell.INTMAX_MIN, Shell.INTMAX_MAX.
  pose proof (Z.mod_pos_bound (z + 2 ^ 63) (2 ^ 64) ltac:(lia)). lia.
Qed.

(** X2. What arithmetic expansion stores in a variable, the decimal text
    of a 64-bit integer, is read back by [test] as the same integer; so
    [count=$((count+1))] followed by [[ "$count" -lt 4 ]] compares the
    number that was computed. *)
Theorem test_reads_back_stored_integer :
  (forall z,
      Shell.INTMAX_MIN <= z <= Shell.INTMAX_MAX ->
      Shell.legal_number (Shell.expand (Some z)) = Some z /\
      forall n, Shell.test_eq (Shell.expand (Some z)) n = (z =? n)) /\
  (forall a b,
      Shell.legal_number (Shell.expand (Some (Shell.add a b)))
      = Some (Shell.add a b)) /\
  (forall a b,
      Shell.legal_number (Shell.expand (Some (Shell.mul a b)))
      = Some (Shell.mul a b)).
Proof.
  split; [|split].
  - intros z Hz. cbn [Shell.expand].
    split; [apply legal_number_pretty, Hz|].
    intros n. unfold Shell.test_eq.
    rewrite (legal_number_pretty z Hz). reflexivity.
  - intros a b. apply legal_number_pretty, intmax_wrap_range.
  - intros a b. apply legal_number_pretty, intmax_wrap_range.
Qed.

Lemma test_reads_back_stored_integer_witness :
  Shell.legal_number (Shell.expand (Some (-9223372036854775808)))
  = Some (-9223372036854775808) /\
  Shell.test_eq (Shell.expand (Some 120)) 120 = true.
Proof.
  split.
  - apply (proj1 test_reads_back_stored_integer (-9223372036854775808)).
    vm_compute. split; discriminate.
  - rewrite (proj2 (proj1 test_reads_back_stored_integer 120
                      ltac:(vm_compute; split; discriminate)) 120).
    reflexivity.
Defined.

(** *** What the probe prints *)

Lemma http_code_legal_table :
  forallb
    (fun k =>
       (Nat.eqb (String.length (http_code (Z.of_nat k))) 3
        && match Shell.legal_number (http_code (Z.of_nat k)) with
           | Some v => v =? Z.of_nat k
           | None => false
           end)%bool)
    (seq 0 1000) = true.
Proof. vm_compute. reflexivity. Qed.

(** X3. Each of the codes [curl] can print, 000 for "no response"
    included, is three characters long and is an integer operand for
    [test], with the code as its value: the comparison with 200 never fails
    with "integer expression expected" on a probe result. *)
Theorem probe_code_is_an_integer code :
  0 <= code <= 999 ->
  String.length (http_code code) = 3%nat /\
  Shell.legal_number (http_code code) = Some code.
Proof.
  intros H. pose proof http_code_legal_table as T.
  rewrite forallb_forall in T.
  specialize (T (Z.to_nat code)). rewrite Z2Nat.id in T by lia.
  assert (Hin : In (Z.to_nat code) (seq 0 1000)) by (apply in_seq; lia).
  apply T in Hin. apply andb_true_iff in Hin as [Hlen Hnum].
  split; [apply Nat.eqb_eq, Hlen|].
  destruct (Shell.legal_number (http_code code)) as [v|]; [|discriminate].
  apply Z.eqb_eq in Hnum. congruence.
Qed.

Lemma probe_code_is_an_integer_witness :
  Shell.legal_number (http_code 0) = Some 0 /\
  String.length (http_code 7) = 3%nat.
Proof.
  split.
  - apply (probe_code_is_an_integer 0). lia.
  - apply (probe_code_is_an_integer 7). lia.
Defined.

(** *** The Telegram switch *)

Lemma posted_off cfg l : disable_telegram cfg <> 0 -> posted cfg l = [].
Proof.
  intros H. unfold posted. apply Z.eqb_neq in H. rewrite H. reflexivity.
Qed.

Lemma logged_off cfg clock site n m st :
  disable_telegram cfg <> 0 ->
  logged cfg clock site n m st =
  [Append (logfile cfg site) (Stamped (stamp clock n) m);
   Stderr (Stamped (stamp clock n) m)].
Proof.
  intros H. unfold logged. rewrite (posted_off cfg _ H).
  destruct (st =? 0); reflexivity.
Qed.

Lemma cycle_flat_off cfg clock site itv r v n :
  disable_telegram cfg <> 0 ->
  notifications (snd (cycle_flat cfg clock site itv r v n)) = [].
Proof.
  intros H. unfold cycle_flat.
  destruct (Shell.test_eq r 200); cbn [snd].
  - destruct (_ && _)%bool; rewrite ?logged_off, ?posted_off by exact H;
      reflexivity.
  - destruct (count v <? 4), (Shell.rem (Shell.add (count v) 1) 12 =? 0);
      rewrite ?logged_off by exact H; reflexivity.
Qed.

Lemma history_off cfg clock site itv answers :
  disable_telegram cfg <> 0 ->
  forall v n,
    notifications (concat (map events (history cfg clock site itv answers v n)))
    = [].
Proof.
  intros H. induction answers as [|a rest IH]; intros v n; [reflexivity|].
  simpl. rewrite observe_cycle.
  pose proof (cycle_flat_off cfg clock site itv a v n H) as Hc.
  destruct (cycle_flat cfg clock site itv a v n) as [[v1 n1] e1].
  simpl in *. rewrite notifications_app, Hc, IH. reflexivity.
Qed.

Lemma clear_events_no_posts cfg sites :
  notifications (clear_events cfg sites) = [].
Proof. induction sites as [|s rest IH]; [reflexivity | exact IH]. Qed.

(** X4. With [disable_telegram] different from 0 nothing is ever posted:
    not by a monitor, whatever the probes answer, not by the start-up
    block, and not by the SIGTERM trap. *)
Theorem telegram_off_posts_nothing cfg clock :
  disable_telegram cfg <> 0 ->
  (forall site itv answers,
      notifications (sitemon_trace cfg clock site itv answers) = []) /\
  (forall outer_tee_first v,
      notifications (snd (observe (startup cfg clock outer_tee_first) v 0))
      = []) /\
  (forall v n,
      notifications (snd (observe (on_sigterm cfg clock) v n)) = []).
Proof.
  intros H. split; [|split].
  - intros site itv answers.
    rewrite sitemon_trace_history, sitemon_history_eq, notifications_app.
    rewrite (history_off cfg clock site itv answers H).
    rewrite (logged_off cfg clock site _ _ _ H). reflexivity.
  - intros b v. rewrite startup_trace.
    destruct (flush_log_on_start cfg =? 0).
    + cbv zeta. rewrite !(posted_off cfg _ H). destruct b; reflexivity.
    + rewrite !(posted_off cfg _ H), notifications_app.
      rewrite clear_events_no_posts. reflexivity.
  - intros v n. rewrite on_sigterm_trace, (posted_off cfg _ H). reflexivity.
Qed.

Lemma telegram_off_posts_nothing_witness :
  notifications
    (sitemon_trace cfg_quiet clock_ex "3di.it/" 5
       (replicate 12 "500" ++ ["200"])) = [].
Proof.
  apply (proj1 (telegram_off_posts_nothing cfg_quiet clock_ex
                  ltac:(vm_compute; discriminate))).
Defined.

Lemma without_posts_app a b :
  without_posts (a ++ b) = without_posts a ++ without_posts b.
Proof. apply List.filter_app. Qed.

Lemma without_posts_posted cfg l : without_posts (posted cfg l) = [].
Proof. unfold posted. destruct (disable_telegram cfg =? 0); reflexivity. Qed.

Lemma without_posts_logged cfg clock site n m st :
  without_posts (logged cfg clock site n m st) =
  [Append (logfile cfg site) (Stamped (stamp clock n) m);
   Stderr (Stamped (stamp clock n) m)].
Proof.
  unfold logged. rewrite without_posts_app.
  destruct (st =? 0); rewrite ?without_posts_posted; reflexivity.
Qed.

(** One pass does the same to the variables and to the clock, and writes
    the same lines, whatever the Telegram switch says. *)
Lemma cycle_flat_switch cfg1 cfg2 clock site itv r v n :
  LOG_DIR cfg1 = LOG_DIR cfg2 ->
  fst (cycle_flat cfg1 clock site itv r v n)
  = fst (cycle_flat cfg2 clock site itv r v n) /\
  without_posts (snd (cycle_flat cfg1 clock site itv r v n))
  = without_posts (snd (cycle_flat cfg2 clock site itv r v n)).
Proof.
  intros Hdir.
  assert (Hf : logfile cfg1 site = logfile cfg2 site)
    by (unfold logfile; rewrite Hdir; reflexivity).
  unfold cycle_flat.
  destruct (Shell.test_eq r 200); cbn [fst snd]; (split; [reflexivity|]).
  - destruct (_ && _)%bool;
      rewrite ?without_posts_app, ?without_posts_logged,
        ?without_posts_posted, Hf; reflexivity.
  - destruct (count v <? 4), (Shell.rem (Shell.add (count v) 1) 12 =? 0);
      rewrite ?without_posts_app, ?without_posts_logged, ?Hf; reflexivity.
Qed.

Lemma history_switch cfg1 cfg2 clock site itv answers :
  LOG_DIR cfg1 = LOG_DIR cfg2 ->
  forall v n,
    map after (history cfg1 clock site itv answers v n)
    = map after (history cfg2 clock site itv answers v n) /\
    without_posts
      (concat (map events (history cfg1 clock site itv answers v n)))
    = without_posts
        (concat (map events (history cfg2 clock site itv answers v n))).
Proof.
  intros Hdir. induction answers as [|a rest IH]; intros v n;
    [split; reflexivity|].
  simpl. rewrite !observe_cycle.
  destruct (cycle_flat_switch cfg1 cfg2 clock site itv a v n Hdir)
    as [Hfst Hsnd].
  destruct (cycle_flat cfg1 clock site itv a v n) as [[v1 n1] e1].
  destruct (cycle_flat cfg2 clock site itv a v n) as [[v2 n2] e2].
  simpl in Hfst, Hsnd. injection Hfst as <- <-.
  destruct (IH v1 n1) as [Ha He]. simpl.
  rewrite !without_posts_app, Hsnd, He, Ha. split; reflexivity.
Qed.

(** X5. The Telegram switch changes nothing but the posts: two
    configurations with the same log directory and process id take a
    monitor through the same variables, cycle after cycle, and make it
    write the same lines to the same file. *)
Theorem telegram_switch_only_changes_posts
    cfg1 cfg2 clock site itv answers :
  LOG_DIR cfg1 = LOG_DIR cfg2 ->
  PID cfg1 = PID cfg2 ->
  map after (sitemon_history cfg1 clock site itv answers)
  = map after (sitemon_history cfg2 clock site itv answers) /\
  without_posts (sitemon_trace cfg1 clock site itv answers)
  = without_posts (sitemon_trace cfg2 clock site itv answers).
Proof.
  intros Hdir Hpid.
  rewrite !sitemon_trace_history, !sitemon_history_eq.
  destruct (history_switch cfg1 cfg2 clock site itv answers Hdir
              sitemon_locals 1%nat) as [Ha He].
  split; [exact Ha|].
  rewrite !without_posts_app, !without_posts_logged, He, Hpid.
  unfold logfile. rewrite Hdir. reflexivity.
Qed.

Lemma telegram_switch_only_changes_posts_witness :
  without_posts
    (sitemon_trace cfg_ex clock_ex "3di.it/" 5 ["500"; "200"])
  = without_posts
      (sitemon_trace cfg_quiet clock_ex "3di.it/" 5 ["500"; "200"]).
Proof.
  apply (telegram_switch_only_changes_posts cfg_ex cfg_quiet clock_ex
           "3di.it/" 5 ["500"; "200"] eq_refl eq_refl).
Defined.

(** *** What a monitor writes, and where *)

(** A trace that only ever adds lines to [f] leaves every other file as it
    was and extends [f] by exactly those lines. *)
Lemma replay_writes_only_to f tr :
  Forall (writes_only_to f) tr ->
  forall fs : gmap string (list line),
    (forall path, path <> f -> replay fs tr !! path = fs !! path) /\
    replay fs tr !! f =
    match log_lines tr with
    | [] => fs !! f
    | ls => Some (default [] (fs !! f) ++ ls)
    end.
Proof.
  induction 1 as [|e tr He Htr IH]; intros fs; [split; reflexivity|].
  change (replay fs (e :: tr)) with (replay (apply_event fs e) tr).
  destruct (IH (apply_event fs e)) as [IHo IHf].
  destruct e as [g|g l| | | | | |]; simpl in He; try contradiction;
    try (split; [exact IHo | exact IHf]).
  subst g. split.
  - intros path Hne. rewrite (IHo path Hne). simpl.
    apply lookup_insert_ne. congruence.
  - rewrite IHf. simpl. rewrite lookup_insert_eq.
    change (log_lines (Append f l :: tr)) with (l :: log_lines tr).
    destruct (log_lines tr) as [|l' ls]; [reflexivity|].
    simpl. rewrite <- app_assoc. reflexivity.
Qed.

Lemma posted_writes_nothing cfg f l : Forall (writes_only_to f) (posted cfg l).
Proof.
  unfold posted. destruct (disable_telegram cfg =? 0); repeat constructor.
Qed.

Lemma logged_writes_own cfg clock site n m st :
  Forall (writes_only_to (logfile cfg site)) (logged cfg clock site n m st).
Proof.
  unfold logged. apply Forall_app. split; [repeat constructor|].
  destruct (st =? 0); [apply posted_writes_nothing | constructor].
Qed.

Lemma cycle_flat_writes_own cfg clock site itv r v n :
  Forall (writes_only_to (logfile cfg site))
    (snd (cycle_flat cfg clock site itv r v n)).
Proof.
  unfold cycle_flat.
  destruct (Shell.test_eq r 200); cbn [snd];
    repeat match goal with
      | |- Forall _ (logged _ _ _ _ _ _) => apply logged_writes_own
      | |- Forall _ (posted _ _) => apply posted_writes_nothing
      | |- Forall _ (if ?b then _ else _) => destruct b
      | |- Forall _ (_ ++ _) => apply Forall_app; split
      | |- Forall _ [] => constructor
      | |- Forall _ [_] => repeat constructor
      end.
Qed.

Lemma history_writes_own cfg clock site itv answers :
  forall v n,
    Forall (writes_only_to (logfile cfg site))
      (concat (map events (history cfg clock site itv answers v n))).
Proof.
  induction answers as [|a rest IH]; intros v n; [constructor|].
  simpl. rewrite observe_cycle.
  pose proof (cycle_flat_writes_own cfg clock site itv a v n) as Hc.
  destruct (cycle_flat cfg clock site itv a v n) as [[v1 n1] e1].
  simpl in *. apply Forall_app. split; [exact Hc | apply IH].
Qed.

(** X6. A monitor only ever appends to its own per-site log: whatever the
    probes answer, after a run that file holds what it held before followed
    by the lines the monitor logged, and every other file, the aggregate
    log included, is as it was. *)
Theorem sitemon_appends_to_its_own_log cfg clock site itv answers
    (fs : gmap string (list line)) :
  let tr := sitemon_trace cfg clock site itv answers in
  replay fs tr !! logfile cfg site
  = Some (default [] (fs !! logfile cfg site) ++ log_lines tr) /\
  (forall path, path <> logfile cfg site -> replay fs tr !! path = fs !! path).
Proof.
  cbv zeta.
  assert (Hown : Forall (writes_only_to (logfile cfg site))
                   (sitemon_trace cfg clock site itv answers)).
  { rewrite sitemon_trace_history, sitemon_history_eq. apply Forall_app.
    split; [apply logged_writes_own | apply history_writes_own]. }
  destruct (replay_writes_only_to _ _ Hown fs) as [Ho Hf].
  split; [|exact Ho].
  rewrite Hf. rewrite sitemon_trace_history, log_lines_app, log_lines_logged.
  reflexivity.
Qed.

(** *** Cadence *)

Lemma pacing_app a b : pacing (a ++ b) = pacing a ++ pacing b.
Proof. apply omap_app. Qed.

Lemma pacing_posted cfg l : pacing (posted cfg l) = [].
Proof. unfold posted. destruct (disable_telegram cfg =? 0); reflexivity. Qed.

Lemma pacing_logged cfg clock site n m st :
  pacing (logged cfg clock site n m st) = [].
Proof.
  unfold logged. rewrite pacing_app.
  destruct (st =? 0); rewrite ?pacing_posted; reflexivity.
Qed.

Lemma pacing_cycle_flat cfg clock site itv r v n :
  pacing (snd (cycle_flat cfg clock site itv r v n)) = [inl site; inr itv].
Proof.
  unfold cycle_flat.
  destruct (Shell.test_eq r 200); cbn [snd].
  - destruct (_ && _)%bool;
      rewrite ?pacing_app, ?pacing_logged, ?pacing_posted; reflexivity.
  - destruct (count v <? 4), (Shell.rem (Shell.add (count v) 1) 12 =? 0);
      rewrite ?pacing_app, ?pacing_logged; reflexivity.
Qed.

(** X7. A monitor probes its own site once per cycle and then sleeps for
    the interval it was given, whatever the outcome: the probes and sleeps
    of a run are one probe / sleep pair per answer, with no retry and no
    back-off. *)
Theorem one_probe_and_one_sleep_per_cycle cfg clock site itv answers :
  pacing (sitemon_trace cfg clock site itv answers)
  = flat_map (fun _ => [inl site; inr itv]) answers.
Proof.
  rewrite sitemon_trace_history, sitemon_history_eq, pacing_app, pacing_logged.
  simpl. generalize sitemon_locals 1%nat.
  induction answers as [|a rest IH]; intros v n; [reflexivity|].
  simpl. rewrite observe_cycle.
  pose proof (pacing_cycle_flat cfg clock site itv a v n) as Hc.
  destruct (cycle_flat cfg clock site itv a v n) as [[v1 n1] e1].
  simpl in *. rewrite pacing_app, Hc, IH. reflexivity.
Qed.

(** *** How much a long outage writes *)

Lemma failed_cycle_lines cfg clock site itv r v n :
  failed r -> 0 <= count v < Shell.INTMAX_MAX ->
  count (fst (fst (cycle_flat cfg clock site itv r v n))) = count v + 1 /\
  Z.of_nat (length (log_lines (snd (cycle_flat cfg clock site itv r v n))))
  = (Z.min (count v + 1) 4 - Z.min (count v) 4)
    + ((count v + 1) / 12 - count v / 12).
Proof.
  intros Hf Hc. unfold failed in Hf. unfold cycle_flat. rewrite Hf.
  cbn [fst snd count]. rewrite add_small by lia. rewrite rem_mod by lia.
  split; [reflexivity|].
  destruct (count v <? 4) eqn:H4;
    [apply Z.ltb_lt in H4 | apply Z.ltb_ge in H4];
    (destruct ((count v + 1) mod 12 =? 0) eqn:Hm;
     [apply Z.eqb_eq in Hm | apply Z.eqb_neq in Hm]);
    autorewrite with readers; simpl length;
    Z.to_euclidean_division_equations; lia.
Qed.

Lemma outage_lines cfg clock site itv answers :
  forall v n,
    Forall failed answers ->
    0 <= count v ->
    count v + Z.of_nat (length answers) <= Shell.INTMAX_MAX ->
    Z.of_nat
      (length (log_lines
                 (concat (map events (history cfg clock site itv answers v n)))))
    = (Z.min (count v + Z.of_nat (length answers)) 4 - Z.min (count v) 4)
      + ((count v + Z.of_nat (length answers)) / 12 - count v / 12).
Proof.
  induction answers as [|a rest IH]; intros v n Hf Hc Hb.
  - simpl. rewrite Z.add_0_r. lia.
  - inversion Hf as [|? ? Ha Hrest]; subst.
    simpl length in *. simpl history. rewrite observe_cycle.
    destruct (failed_cycle_lines cfg clock site itv a v n Ha ltac:(lia))
      as [Hc1 Hl1].
    destruct (cycle_flat cfg clock site itv a v n) as [[v1 n1] e1].
    simpl in Hc1, Hl1. simpl map. simpl concat.
    rewrite log_lines_app, length_app, Nat2Z.inj_add, Hl1.
    rewrite (IH v1 n1 Hrest) by lia. rewrite Hc1.
    replace (count v + Z.of_nat (S (length rest)))
      with (count v + 1 + Z.of_nat (length rest)) by lia.
    lia.
Qed.

(** X8. An outage is logged with bounded verbosity: a monitor whose first
    [n] probes all fail has written, besides its start line, one failure
    line for each of the first four failures and one ALERT for every
    twelfth, [min n 4 + n / 12] lines in all. *)
Theorem outage_writes_few_lines cfg clock site itv answers :
  Forall failed answers ->
  Z.of_nat (length answers) <= Shell.INTMAX_MAX ->
  Z.of_nat (length (log_lines (sitemon_trace cfg clock site itv answers)))
  = 1 + Z.min (Z.of_nat (length answers)) 4 + Z.of_nat (length answers) / 12.
Proof.
  intros Hf Hb.
  rewrite sitemon_trace_history, sitemon_history_eq.
  rewrite log_lines_app, log_lines_logged, length_app, Nat2Z.inj_add.
  rewrite (outage_lines cfg clock site itv answers sitemon_locals 1%nat Hf)
    by (simpl; lia).
  simpl count. simpl length. rewrite !Z.add_0_l.
  change (0 / 12) with 0. lia.
Qed.

Lemma outage_writes_few_lines_witness :
  length (log_lines
            (sitemon_trace cfg_ex clock_ex "3di.it/" 5 (replicate 30 "503")))
  = 7%nat.
Proof.
  apply Nat2Z.inj.
  rewrite (outage_writes_few_lines cfg_ex clock_ex "3di.it/" 5
             (replicate 30 "503"));
    [reflexivity | | vm_compute; discriminate].
  apply Forall_forall. intros x Hx. apply elem_of_replicate in Hx as [-> _].
  reflexivity.
Defined.

(** *** The "Last ok" field *)

Lemma lastOK_step cfg clock site itv r v n :
  lastOK (fst (fst (cycle_flat cfg clock site itv r v n))) = "" <->
  lastOK v = "" /\ failed r.
Proof.
  unfold cycle_flat, failed.
  destruct (Shell.test_eq r 200); cbn [fst lastOK].
  - split; [|intros [_ H]; discriminate].
    intros H. exfalso. exact (stamp_nonempty clock _ H).
  - split; [auto | intros [H _]; exact H].
Qed.

Lemma lastOK_before cfg clock site itv answers :
  forall v n i t,
    history cfg clock site itv answers v n !! i = Some t ->
    (lastOK (before t) = "" <->
     lastOK v = "" /\ Forall failed (take i answers)).
Proof.
  induction answers as [|a rest IH]; intros v n i t Hl.
  - destruct i; discriminate.
  - simpl in Hl. rewrite observe_cycle in Hl.
    pose proof (lastOK_step cfg clock site itv a v n) as Hs.
    destruct (cycle_flat cfg clock site itv a v n) as [[v1 n1] e1].
    simpl in Hs. destruct i as [|i]; simpl in Hl.
    + injection Hl as <-. simpl. rewrite ?take_0.
      split; [intros H; split; [exact H | constructor] | intros [H _]; exact H].
    + rewrite (IH v1 n1 i t Hl), Hs. simpl take. rewrite Forall_cons.
      tauto.
Qed.

(** X9. The "Last ok:" field of an ALERT is the time of the most recent
    successful probe as [lastOK] holds it, and it is empty exactly when no
    probe of the run has succeeded before that cycle. *)
Theorem alert_last_ok_empty_iff_never_up cfg clock site itv answers i t :
  sitemon_history cfg clock site itv answers !! i = Some t ->
  (lastOK (before t) = "" <-> Forall failed (take i answers)) /\
  (forall lo, In lo (alert_last_oks (events t)) -> lo = lastOK (before t)).
Proof.
  intros Hl. split.
  - rewrite sitemon_history_eq in Hl.
    rewrite (lastOK_before cfg clock site itv answers _ _ i t Hl).
    simpl. tauto.
  - assert (He : exists m,
               events t
               = snd (cycle_flat cfg clock site itv (answer t) (before t) m)).
    { rewrite sitemon_history_eq in Hl. revert Hl.
      generalize sitemon_locals 1%nat. revert i.
      induction answers as [|a rest IH]; intros i v n Hl;
        [destruct i; discriminate|].
      simpl in Hl. rewrite observe_cycle in Hl.
      destruct (cycle_flat cfg clock site itv a v n) as [[v1 n1] e1] eqn:E.
      destruct i as [|i]; simpl in Hl.
      - injection Hl as <-. simpl. exists n. rewrite E. reflexivity.
      - apply (IH i v1 n1 Hl). }
    destruct He as [m ->]. unfold cycle_flat, alert_last_oks.
    destruct (Shell.test_eq (answer t) 200); cbn [snd].
    + destruct (_ && _)%bool; unfold logged, posted;
        destruct (disable_telegram cfg =? 0); simpl; intros lo [].
    + destruct (count (before t) <? 4),
        (Shell.rem (Shell.add (count (before t)) 1) 12 =? 0);
        unfold logged, posted; destruct (disable_telegram cfg =? 0); simpl;
        intros lo H; intuition.
Qed.

Lemma alert_last_ok_empty_iff_never_up_witness :
  exists t,
    sitemon_history cfg_ex clock_ex "3di.it/" 5
      ("200" :: replicate 12 "500") !! 12%nat = Some t /\
    alert_last_oks (events t) = ["2024-06-01 12:00:02"] /\
    ~ Forall failed (take 12 ("200" :: replicate 12 "500")).
Proof.
  eexists. split; [vm_compute; reflexivity|].
  match goal with |- alert_last_oks (events ?t) = _ /\ _ =>
    destruct (alert_last_ok_empty_iff_never_up cfg_ex clock_ex "3di.it/" 5
                ("200" :: replicate 12 "500") 12%nat t) as [H _]
  end; [vm_compute; reflexivity|].
  split; [reflexivity|].
  intros Hall. apply H in Hall. discriminate Hall.
Defined.

(** *** Which recoveries are announced *)

Lemma alert_sets_lastFAIL cfg clock site itv answers j tj :
  Z.of_nat (length answers) <= Shell.INTMAX_MAX ->
  sitemon_history cfg clock site itv answers !! j = Some tj ->
  0 < count (after tj) -> count (after tj) mod 12 = 0 ->
  lastFAIL (after tj) <> "".
Proof.
  intros Hb Hl.
  destruct (sitemon_history_lookup cfg clock site itv answers j tj Hb Hl)
    as (Ha & [Hc _] & Hlt & m & Hv & He).
  rewrite Hv. unfold cycle_flat.
  destruct (Shell.test_eq (answer tj) 200); cbn [fst count lastFAIL]; [lia|].
  rewrite add_small by lia. rewrite rem_mod by lia.
  intros _ Hm. apply Z.eqb_eq in Hm. rewrite Hm. apply stamp_nonempty.
Qed.

(** X10. With Telegram enabled, the return of a site is announced exactly
    when some earlier cycle of the run counted a multiple of 12 failures,
    in this outage or in an earlier one; the announcement then states the
    length of the outage that just ended, however short. *)
Theorem recovery_announced_iff_alerted_before
    cfg clock site itv answers i t :
  disable_telegram cfg = 0 ->
  0 < itv ->
  Z.of_nat (length answers) * itv <= Shell.INTMAX_MAX ->
  sitemon_history cfg clock site itv answers !! i = Some t ->
  Shell.test_eq (answer t) 200 = true ->
  status (before t) = 0 ->
  (back_online (events t) = [Some (count (before t) * itv)] <->
   exists j tj,
     (j < i)%nat /\
     sitemon_history cfg clock site itv answers !! j = Some tj /\
     0 < count (after tj) /\ count (after tj) mod 12 = 0) /\
  (back_online (events t) = [] \/
   back_online (events t) = [Some (count (before t) * itv)]).
Proof.
  intros Htg Hitv Hb Hl Hok Hst.
  assert (Hb' : Z.of_nat (length answers) <= Shell.INTMAX_MAX) by nia.
  assert (Hset : lastFAIL (before t) <> "" ->
                 back_online (events t) = [Some (count (before t) * itv)])
    by (intros Hne;
        apply (recovery_reported_once_lastFAIL_is_set cfg clock site itv
                 answers i t Htg Hitv Hb Hl Hok Hst Hne)).
  split.
  - split.
    + intros Hrep.
      destruct (lastFAIL_step cfg clock site itv answers i t Hb' Hl)
        as [_ Hguard].
      destruct Hguard as (Hne & _);
        [right; rewrite Hrep; discriminate|].
      apply (lastFAIL_origin cfg clock site itv answers Hb' i t Hl Hne).
    + intros (j & tj & Hj & Hlj & Hpos & Hmod). apply Hset.
      destruct i as [|i]; [lia|].
      destruct (lookup_lt_is_Some_2
                  (sitemon_history cfg clock site itv answers) i)
        as [t0 Ht0]; [apply lookup_lt_Some in Hl; lia|].
      assert (Hch : before t = after t0).
      { rewrite sitemon_history_eq in Hl, Ht0.
        apply (history_chain cfg clock site itv answers _ _ i t0 t Ht0 Hl). }
      rewrite Hch.
      replace i with (j + (i - j))%nat in Ht0 by lia.
      apply (lastFAIL_kept cfg clock site itv answers Hb' (i - j) j tj t0
               Hlj Ht0).
      apply (alert_sets_lastFAIL cfg clock site itv answers j tj Hb' Hlj
               Hpos Hmod).
  - destruct (decide (lastFAIL (before t) = "")) as [He|Hne].
    + left.
      apply (no_report_without_lastFAIL cfg clock site itv answers i t Hb' Hl He).
    + right. apply Hset, Hne.
Qed.

Lemma recovery_announced_iff_alerted_before_witness :
  exists t,
    sitemon_history cfg_ex clock_ex "3di.it/" 5
      (replicate 12 "500" ++ ["200"; "500"; "200"]) !! 14%nat = Some t /\
    back_online (events t) = [Some 5].
Proof.
  eexists. split; [vm_compute; reflexivity|].
  match goal with |- back_online (events ?t) = _ =>
    destruct (recovery_announced_iff_alerted_before cfg_ex clock_ex "3di.it/" 5
                (replicate 12 "500" ++ ["200"; "500"; "200"]) 14%nat t)
      as [[_ Hif] _]
  end;
    [reflexivity | lia | vm_compute; discriminate | vm_compute; reflexivity
    | reflexivity | reflexivity |].
  apply Hif. eexists 11%nat, _.
  split; [lia|]. split; [vm_compute; reflexivity|].
  split; [vm_compute; reflexivity | vm_compute; reflexivity].
Defined.

(** *** Start-up and shutdown, file by file *)

(** X11. With [flush_log_on_start] different from 0, start-up leaves in
    every per-site log other than the aggregate log exactly one empty
    line, the output of [echo >file]: whatever the file held, whether or
    not it existed, and however often the site is listed. *)
Theorem startup_flush_leaves_one_empty_line cfg clock outer_tee_first v
    (fs : gmap string (list line)) site :
  flush_log_on_start cfg <> 0 ->
  In site (SITES cfg) ->
  logfile cfg site <> LOG_FILE cfg ->
  startup_files cfg clock outer_tee_first v fs !! logfile cfg site
  = Some [Blank].
Proof.
  intros Hflag Hin Hne. unfold startup_files. rewrite startup_trace.
  apply Z.eqb_neq in Hflag. rewrite Hflag.
  rewrite !replay_app, replay_posted.
  set (fs1 := replay fs (clear_events cfg (SITES cfg))).
  assert (Hfs1 : fs1 !! logfile cfg site = Some [Blank]).
  { subst fs1. rewrite replay_clear_events.
    apply decide_True, Exists_exists. exists site.
    split; [apply list_elem_of_In; exact Hin | reflexivity]. }
  clearbody fs1. unfold replay. cbn [foldl apply_event].
  rewrite !lookup_insert_ne by congruence. exact Hfs1.
Qed.

Lemma startup_flush_leaves_one_empty_line_witness :
  startup_files cfg_ex clock_ex true sitemon_locals fs_ex
    !! "/var/log/sitemon/example.org.log" = Some [Blank].
Proof.
  apply (startup_flush_leaves_one_empty_line cfg_ex clock_ex true
           sitemon_locals fs_ex "example.org");
    [vm_compute; discriminate | right; left; reflexivity
    | vm_compute; discriminate].
Defined.

(** X12. The SIGTERM trap adds its line at the end of the aggregate log,
    keeping what the log held, and changes no other file; it then signals
    the children of the script and exits with status 0, in that order, and
    issues no probe. *)
Theorem trap_appends_then_kills_then_exits cfg clock v n
    (fs : gmap string (list line)) :
  let tr := snd (observe (on_sigterm cfg clock) v n) in
  replay fs tr !! LOG_FILE cfg
  = Some (default [] (fs !! LOG_FILE cfg)
          ++ [Stamped (stamp clock n) (ReceivedSigterm (HOSTNAME cfg))]) /\
  (forall path, path <> LOG_FILE cfg -> replay fs tr !! path = fs !! path) /\
  pacing tr = [] /\
  exists pre, tr = pre ++ [Pkill (PID cfg); Exit 0] /\
              Forall (fun e => forall p c, e <> Pkill p /\ e <> Exit c) pre.
Proof.
  cbv zeta. rewrite on_sigterm_trace.
  set (l := Stamped (stamp clock n) (ReceivedSigterm (HOSTNAME cfg))).
  set (l' := Stamped (stamp clock (S n)) (ReceivedSigterm (HOSTNAME cfg))).
  assert (Hown : Forall (writes_only_to (LOG_FILE cfg))
                   ([Append (LOG_FILE cfg) l; Stderr l] ++ posted cfg l'
                    ++ [Pkill (PID cfg); Exit 0])).
  { apply Forall_app. split; [repeat constructor|].
    apply Forall_app. split; [apply posted_writes_nothing|repeat constructor]. }
  destruct (replay_writes_only_to _ _ Hown fs) as [Ho Hf].
  split; [|split; [exact Ho|split]].
  - rewrite Hf, !log_lines_app, log_lines_posted. reflexivity.
  - rewrite !pacing_app, pacing_posted. reflexivity.
  - exists ([Append (LOG_FILE cfg) l; Stderr l] ++ posted cfg l').
    split; [rewrite <- app_assoc; reflexivity|].
    apply Forall_app. split.
    + repeat constructor; discriminate.
    + unfold posted. destruct (disable_telegram cfg =? 0);
        repeat constructor; discriminate.
Qed.

(** *** Monitors side by side *)

Lemma sitemon_writes_own cfg clock site itv answers :
  Forall (writes_only_to (logfile cfg site))
    (sitemon_trace cfg clock site itv answers).
Proof.
  rewrite sitemon_trace_history, sitemon_history_eq. apply Forall_app.
  split; [apply logged_writes_own | apply history_writes_own].
Qed.

Lemma sitemon_log_after cfg clock site itv answers
    (fs : gmap string (list line)) :
  replay fs (sitemon_trace cfg clock site itv answers) !! logfile cfg site
  = Some (default [] (fs !! logfile cfg site)
          ++ log_lines (sitemon_trace cfg clock site itv answers)).
Proof.
  destruct (replay_writes_only_to _ _
              (sitemon_writes_own cfg clock site itv answers) fs) as [_ Hf].
  rewrite Hf. rewrite sitemon_trace_history, log_lines_app, log_lines_logged.
  reflexivity.
Qed.

(** What a file holds after a trace depends only on the events that touch
    it. *)
Lemma replay_touches f tr :
  forall fs fs' : gmap string (list line),
    fs !! f = fs' !! f ->
    replay fs tr !! f = replay fs' (List.filter (touches f) tr) !! f.
Proof.
  induction tr as [|e tr IH]; intros fs fs' Hag; [exact Hag|].
  change (replay fs (e :: tr)) with (replay (apply_event fs e) tr).
  simpl List.filter. destruct (touches f e) eqn:Ht.
  - change (replay fs' (e :: List.filter (touches f) tr))
      with (replay (apply_event fs' e) (List.filter (touches f) tr)).
    apply IH.
    destruct e as [g|g l| | | | | |]; simpl in Ht; try discriminate;
      apply bool_decide_eq_true in Ht; subst g; simpl;
      rewrite !lookup_insert_eq, ?Hag; reflexivity.
  - apply IH. rewrite <- Hag.
    destruct e as [g|g l| | | | | |]; simpl in Ht; try reflexivity;
      apply bool_decide_eq_false in Ht; simpl;
      apply lookup_insert_ne; congruence.
Qed.

Lemma untouched_by_other_writer f g tr :
  Forall (writes_only_to g) tr -> g <> f -> List.filter (touches f) tr = [].
Proof.
  induction 1 as [|e tr He Htr IH]; intros Hne; [reflexivity|].
  simpl. rewrite (IH Hne).
  destruct e as [h|h l| | | | | |]; simpl in He |- *; try reflexivity;
    [contradiction|].
  subst h. rewrite bool_decide_eq_false_2 by exact Hne. reflexivity.
Qed.

(** In an interleaving, the events that touch a file only one of the
    traces touches are the events of that trace that touch it. *)
Lemma interleaving_touches f trs tr :
  interleaving trs tr ->
  forall k tk,
    trs !! k = Some tk ->
    (forall k' t', k' <> k -> trs !! k' = Some t' ->
                   List.filter (touches f) t' = []) ->
    List.filter (touches f) tr = List.filter (touches f) tk.
Proof.
  induction 1 as [trs Hall|trs j e rest tr Hj Hint IH]; intros k tk Hk Hoth.
  - rewrite Forall_forall in Hall.
    rewrite (Hall tk) by (apply list_elem_of_lookup; eauto). reflexivity.
  - destruct (decide (j = k)) as [->|Hne].
    + rewrite Hk in Hj. injection Hj as ->.
      simpl. rewrite (IH k rest).
      * reflexivity.
      * apply list_lookup_insert_eq. apply lookup_lt_Some in Hk. exact Hk.
      * intros k' t' Hk' Ht'. rewrite list_lookup_insert_ne in Ht' by congruence.
        apply (Hoth k' t' Hk' Ht').
    + pose proof (Hoth j (e :: rest) Hne Hj) as Hnil. simpl in Hnil.
      simpl. destruct (touches f e); [discriminate|].
      apply (IH k tk).
      * rewrite list_lookup_insert_ne by congruence. exact Hk.
      * intros k' t' Hk' Ht'.
        destruct (decide (k' = j)) as [->|Hnj].
        -- rewrite list_lookup_insert_eq in Ht'
             by (apply lookup_lt_Some in Hj; exact Hj).
           injection Ht' as <-. exact Hnil.
        -- rewrite list_lookup_insert_ne in Ht' by congruence.
           apply (Hoth k' t' Hk' Ht').
Qed.

Lemma interleaving_untouched f trs tr :
  interleaving trs tr ->
  (forall k t, trs !! k = Some t -> List.filter (touches f) t = []) ->
  List.filter (touches f) tr = [].
Proof.
  induction 1 as [trs Hall|trs j e rest tr Hj Hint IH]; intros Hoth;
    [reflexivity|].
  pose proof (Hoth j (e :: rest) Hj) as Hnil. simpl in Hnil.
  simpl. destruct (touches f e); [discriminate|].
  apply IH. intros k t Ht.
  destruct (decide (k = j)) as [->|Hnj].
  - rewrite list_lookup_insert_eq in Ht
      by (apply lookup_lt_Some in Hj; exact Hj).
    injection Ht as <-. exact Hnil.
  - rewrite list_lookup_insert_ne in Ht by congruence.
    apply (Hoth k t Ht).
Qed.

Lemma launch_lookup cfg runs k t :
  launch cfg runs !! k = Some t ->
  exists site run,
    SITES cfg !! k = Some site /\ runs !! k = Some run /\
    t = sitemon_trace cfg (fst run) site (interval cfg) (snd run).
Proof.
  unfold launch. intros H. apply lookup_zip_with_Some in H.
  destruct H as (site & run & -> & Hs & Hr). eauto.
Qed.

(** X13. Monitors started side by side keep their logs apart: however the
    actions of the background monitors interleave, the log of a site whose
    log name no other configured site shares holds, after them, what it
    held before followed by that monitor's own lines in order, and a file
    that is no site's log, such as the aggregate log, is left as it
    was. *)
Theorem main_loop_keeps_logs_apart cfg runs tr
    (fs : gmap string (list line)) :
  interleaving (launch cfg runs) tr ->
  (forall k site run,
      SITES cfg !! k = Some site -> runs !! k = Some run ->
      (forall k' site', k' <> k -> SITES cfg !! k' = Some site' ->
                        logfile cfg site' <> logfile cfg site) ->
      replay fs tr !! logfile cfg site
      = Some (default [] (fs !! logfile cfg site)
              ++ log_lines (sitemon_trace cfg (fst run) site (interval cfg)
                              (snd run)))) /\
  (forall path,
      (forall site, In site (SITES cfg) -> logfile cfg site <> path) ->
      replay fs tr !! path = fs !! path).
Proof.
  intros Hint. split.
  - intros k site run Hs Hr Hapart.
    set (tk := sitemon_trace cfg (fst run) site (interval cfg) (snd run)).
    assert (Hk : launch cfg runs !! k = Some tk).
    { unfold launch. apply lookup_zip_with_Some. eauto. }
    rewrite (replay_touches _ tr fs fs eq_refl).
    rewrite (interleaving_touches _ _ _ Hint k tk Hk).
    + rewrite <- (replay_touches _ tk fs fs eq_refl).
      apply (sitemon_log_after cfg (fst run) site (interval cfg)
               (snd run) fs).
    + intros k' t' Hk' Ht'.
      destruct (launch_lookup cfg runs k' t' Ht') as (s' & r' & Hs' & _ & ->).
      apply (untouched_by_other_writer _ (logfile cfg s'));
        [apply sitemon_writes_own | apply (Hapart k' s' Hk' Hs')].
  - intros path Hno.
    rewrite (replay_touches _ tr fs fs eq_refl).
    rewrite (interleaving_untouched _ _ _ Hint); [reflexivity|].
    intros k t Ht.
    destruct (launch_lookup cfg runs k t Ht) as (s' & r' & Hs' & _ & ->).
    apply (untouched_by_other_writer _ (logfile cfg s'));
      [apply sitemon_writes_own|].
    apply Hno, list_elem_of_In, list_elem_of_lookup. eauto.
Qed.

(** Running two traces one after the other is one of their
    interleavings. *)
Lemma interleaving_one_after_the_other t1 t2 :
  interleaving [t1; t2] (t1 ++ t2).
Proof.
  induction t1 as [|e t1 IH]; simpl.
  - induction t2 as [|e t2 IH]; [constructor; repeat constructor|].
    apply (interleaving_step _ 1%nat e t2); [reflexivity | exact IH].
  - apply (interleaving_step _ 0%nat e t1); [reflexivity | exact IH].
Qed.

Lemma main_loop_keeps_logs_apart_witness :
  replay fs_ex
    (sitemon_trace cfg_ex clock_ex "3di.it/" 5 ["500"]
     ++ sitemon_trace cfg_ex clock_ex "example.org" 5 ["200"])
  !! logfile cfg_ex "example.org"
  = Some (default [] (fs_ex !! logfile cfg_ex "example.org")
          ++ log_lines (sitemon_trace cfg_ex clock_ex "example.org" 5 ["200"])).
Proof.
  refine (proj1 (main_loop_keeps_logs_apart cfg_ex
                   [(clock_ex, ["500"]); (clock_ex, ["200"])] _ fs_ex _)
            1%nat "example.org" (clock_ex, ["200"]) eq_refl eq_refl _).
  - apply interleaving_one_after_the_other.
  - intros k' site' Hk' Hs'.
    destruct k' as [|[|k']]; [|contradiction|discriminate].
    injection Hs' as <-. vm_compute. discriminate.
Defined.

(** ** Redirects *)

Lemma last_in_range (exchange : list Z) :
  Forall (fun c => 0 <= c <= 999) exchange ->
  0 <= default 0 (last exchange) <= 999.
Proof.
  induction 1 as [|c rest Hc Hrest IH]; [simpl; lia|].
  destruct rest as [|c' rest']; [exact Hc | exact IH].
Qed.

(** C4, as the specification states it, fails: a probe that is answered
    301 and, after the redirect is followed, 200 is reported by curl as
    200 and counts as a success. *)
Lemma followed_redirect_to_200_is_success :
  ~ followed_redirect_is_failure cfg_ex clock_ex "3di.it/" 5 [301; 200]
      sitemon_locals 1.
Proof.
  unfold followed_redirect_is_failure. intros H.
  assert (Hr : redirect_followed [301; 200]).
  { exists 301, [200]. split; [reflexivity|]. split; [lia | discriminate]. }
  specialize (H Hr). vm_compute in H. discriminate H.
Qed.

(** C4, amended. A probe counts as a success exactly when the code curl
    reports, which with [-L] is the code of the last response after any
    redirects were followed, is 200: the cycle then ends with [status] 1
    and [count] 0, also when a redirect led there.  Any other reported
    code (another 2xx, a 3xx that ended the exchange, 000 for no answer,
    text that is no integer) ends it with [status] 0 and the counter
    incremented. *)
Theorem success_iff_reported_code_is_200 :
  (forall cfg clock site itv r v n,
      let '(v', _, _) := observe (cycle cfg clock site itv r) v n in
      (Shell.legal_number r = Some 200 -> status v' = 1 /\ count v' = 0) /\
      (Shell.legal_number r <> Some 200 ->
       status v' = 0 /\ count v' = Shell.add (count v) 1)) /\
  (forall cfg clock site itv exchange v n,
      Forall (fun c => 0 <= c <= 999) exchange ->
      let '(v', _, _) :=
        observe (cycle cfg clock site itv (curl_http_code exchange)) v n in
      (default 0 (last exchange) = 200 -> status v' = 1 /\ count v' = 0) /\
      (default 0 (last exchange) <> 200 ->
       status v' = 0 /\ count v' = Shell.add (count v) 1)).
Proof.
  split.
  - intros cfg clock site itv r v n. rewrite observe_cycle. unfold cycle_flat.
    destruct (Shell.test_eq r 200) eqn:Hok; simpl.
    + apply test_eq_legal in Hok. split; [auto | congruence].
    + split; [|auto]. intros H. apply test_eq_legal in H. congruence.
  - intros cfg clock site itv exchange v n Hx. rewrite observe_cycle.
    unfold cycle_flat, curl_http_code.
    rewrite (test_eq_http_code _ (last_in_range exchange Hx)).
    destruct (Z.eqb_spec (default 0 (last exchange)) 200) as [E|Hne]; simpl.
    + split; [auto | congruence].
    + split; [congruence | auto].
Qed.

Lemma success_iff_reported_code_is_200_witness :
  status (fst (fst (observe
                      (cycle cfg_ex clock_ex "3di.it/" 5
                         (curl_http_code [301; 200]))
                      sitemon_locals 1))) = 1 /\
  status (fst (fst (observe
                      (cycle cfg_ex clock_ex "3di.it/" 5
                         (curl_http_code [302; 204]))
                      sitemon_locals 1))) = 0.
Proof.
  pose proof (proj2 success_iff_reported_code_is_200 cfg_ex clock_ex "3di.it/"
                5 [301; 200] sitemon_locals 1%nat
                ltac:(repeat constructor; lia)) as H200.
  pose proof (proj2 success_iff_reported_code_is_200 cfg_ex clock_ex "3di.it/"
                5 [302; 204] sitemon_locals 1%nat
                ltac:(repeat constructor; lia)) as H204.
  destruct (observe (cycle cfg_ex clock_ex "3di.it/" 5
                       (curl_http_code [301; 200])) sitemon_locals 1)
    as [[v1 n1] e1].
  destruct (observe (cycle cfg_ex clock_ex "3di.it/" 5
                       (curl_http_code [302; 204])) sitemon_locals 1)
    as [[v2 n2] e2].
  simpl. split.
  - apply H200. reflexivity.
  - apply H204. discriminate.
Defined.
